(** * validate_project.py: the project validator, embedded and verified

    The script is a sequence of five checkers and an orchestrator.  Every
    checker talks to the outside world through four primitives only:
    [os.path.isdir], [os.path.isfile], [open(p, 'r')] followed by a read, and
    [print].  The embedding keeps that shape: a world is a filesystem
    together with what has been printed so far, and a Python function body
    becomes a computation in a state-and-exception monad over worlds.

    Modelling conventions.
    - Text is a Rocq [string]; each character stands for one code point
      below 256.  A file is given by what reading it as text yields: the
      text, or the exception raised by [open] or [read].
    - A printed line is a constructor of [line], one per [print] statement of
      the source, carrying the values interpolated in its f-string.
    - [exn] holds the exceptions derived from Python's [Exception]; writing
      to standard output is assumed to succeed.
    - Opening and reading a path is assumed to end, with the text or with
      an exception.
    - [json.load] belongs to Python's library: the checkers are
      parameterised by the decoder, and [PyJson.loads] is a decoder written
      after the grammar of [json.decoder] for use on concrete files. *)

From Stdlib Require Import ZArith NArith Ascii String.
From stdpp Require Import base option list strings gmap.

Set Warnings "-register-all".

Open Scope string_scope.
Open Scope list_scope.

(** ** Exceptions and printed lines *)

(** The exceptions the modelled operations can raise; all of them are
    subclasses of [Exception], and [JSONDecodeError] is the only one the
    source names in a handler of its own. *)
Inductive exn : Type :=
  | FileNotFoundError (path : string)
  | IsADirectoryError (path : string)
  | PermissionError (path : string)
  | UnicodeDecodeError
  | JSONDecodeError (msg : string)
  | TypeError (msg : string)
  | KeyError (key : string)
  | RecursionError
  | OtherException (name msg : string).

Definition is_JSONDecodeError (e : exn) : bool :=
  match e with JSONDecodeError _ => true | _ => false end.

(** One constructor per [print] call of the source. *)
Inductive line : Type :=
  (* validate_project_structure *)
  | StructureHeader                       (* "Validating project structure..." *)
  | DirOk (dir_path : string)             (* "Directory: {dir_path}" *)
  | DirMissing (dir_path : string)        (* "Missing directory: {dir_path}" *)
  | FileOk (file_path : string)           (* "File: {file_path}" *)
  | FileMissing (file_path : string)      (* "Missing file: {file_path}" *)
  (* validate_notebooks *)
  | NotebooksHeader                       (* "Validating Jupyter notebooks..." *)
  | NotebookNoCells (notebook : string)   (* "{notebook}: Missing 'cells' key" *)
  | NotebookValid (notebook : string) (cell_count : nat)
                                          (* "{notebook}: {cell_count} cells - Valid structure" *)
  | NotebookInvalidJSON (notebook : string) (e : exn)
                                          (* "{notebook}: Invalid JSON - {e}" *)
  | NotebookError (notebook : string) (e : exn)
                                          (* "{notebook}: Error - {e}" *)
  (* validate_data_pipeline *)
  | PipelineHeader                        (* "Validating data pipeline structure..." *)
  | LayerDocOk (layer : string)           (* "{layer} layer documentation exists" *)
  | LayerDocMissing (layer : string)      (* "Missing {layer} layer documentation" *)
  | ModelsDocOk                           (* "Models documentation exists" *)
  | ModelsDocMissing                      (* "Missing models documentation" *)
  (* validate_requirements *)
  | RequirementsHeader                    (* "Validating requirements..." *)
  | PackageOk (package : string)          (* "{package} specified in requirements" *)
  | PackageMissing (package : string)     (* "{package} missing from requirements" *)
  | RequirementsError (e : exn)           (* "Error reading requirements.txt: {e}" *)
  (* validate_gitignore *)
  | GitignoreHeader                       (* "Validating .gitignore..." *)
  | PatternOk (pattern : string)          (* "{pattern} pattern included" *)
  | PatternWarning (pattern : string)     (* "{pattern} pattern might be missing" *)
  | GitignoreError (e : exn)              (* "Error reading .gitignore: {e}" *)
  (* main *)
  | Title                                 (* "E-commerce Retention Predictor - Project Validation" *)
  | Rule                                  (* "=" * 55 *)
  | ClosingRule                           (* "\n" + "=" * 55 *)
  | BannerPassed                          (* "All validation checks passed!" *)
  | BannerStructureOk                     (* "Project structure is correctly implemented" *)
  | BannerReady                           (* "Ready for notebook execution with proper dependencies" *)
  | BannerFailed                          (* "Some validation checks failed" *)
  | BannerFixIssues.                      (* "Please review and fix the issues above" *)

(** ** The filesystem *)

(** What a path names.  [RegularFile] and [SpecialFile] carry the outcome of
    opening the path for reading and reading it to the end as text; a
    special file (a character device, say) can be opened but is not a
    regular file for [os.path.isfile]. *)
Inductive node : Type :=
  | Directory
  | RegularFile (content : exn + string)
  | SpecialFile (content : exn + string).

Record world : Type := World {
  fs : gmap string node;
  stdout : list line
}.

(** [os.path.isdir] and [os.path.isfile]: both answer [False] instead of
    raising when the path does not exist. *)
Definition isdir (files : gmap string node) (path : string) : bool :=
  match files !! path with
  | Some Directory => true
  | _ => false
  end.

Definition isfile (files : gmap string node) (path : string) : bool :=
  match files !! path with
  | Some (RegularFile _) => true
  | _ => false
  end.

(** [with open(path, 'r') as f: f.read()]. *)
Definition read_text (files : gmap string node) (path : string) : exn + string :=
  match files !! path with
  | None => inl (FileNotFoundError path)
  | Some Directory => inl (IsADirectoryError path)
  | Some (RegularFile content) => content
  | Some (SpecialFile content) => content
  end.

Definition readable (files : gmap string node) (path : string) : Prop :=
  ∃ text, read_text files path = inr text.

(** ** The monad of Python function bodies *)

Definition M (A : Type) : Type := world → (exn + A) * world.

Definition ret {A} (a : A) : M A := λ w, (inr a, w).

Definition raise {A} (e : exn) : M A := λ w, (inl e, w).

Definition bind {A B} (m : M A) (k : A → M B) : M B :=
  λ w, match m w with
       | (inr a, w') => k a w'
       | (inl e, w') => (inl e, w')
       end.

(** [try: body except ...: handler]; what the body printed before it raised
    stays printed. *)
Definition try_except {A} (body : M A) (handler : exn → M A) : M A :=
  λ w, match body w with
       | (inr a, w') => (inr a, w')
       | (inl e, w') => handler e w'
       end.

Definition lift {A} (r : exn + A) : M A :=
  match r with inl e => raise e | inr a => ret a end.

#[global] Instance M_ret : MRet M := @ret.
#[global] Instance M_bind : MBind M := λ A B k m, bind m k.

Definition os_path_isdir (path : string) : M bool :=
  λ w, (inr (isdir (fs w) path), w).

Definition os_path_isfile (path : string) : M bool :=
  λ w, (inr (isfile (fs w) path), w).

Definition open_read (path : string) : M string :=
  λ w, (read_text (fs w) path, w).

Definition print (l : line) : M unit :=
  λ w, (inr (), World (fs w) (stdout w ++ [l])).

(** A [for] loop whose body may [return] from the enclosing function: the
    body answers [Some r] for [return r] and [None] when it falls through to
    the next iteration. *)
Fixpoint for_ {A R} (xs : list A) (body : A → M (option R)) : M (option R) :=
  match xs with
  | [] => ret None
  | x :: xs' =>
      r ← body x;
      match r with
      | Some v => ret (Some v)
      | None => for_ xs' body
      end
  end.

(** A [for] loop that updates one local variable. *)
Fixpoint for_acc {A S} (xs : list A) (acc : S) (body : A → S → M S) : M S :=
  match xs with
  | [] => ret acc
  | x :: xs' => acc' ← body x acc; for_acc xs' acc' body
  end.

Definition return_ {R} (r : R) : M (option R) := ret (Some r).
Definition continue {R} : M (option R) := ret None.

(** ** validate_project_structure *)

Definition required_dirs : list string :=
  ["data"; "data/raw"; "data/stage"; "data/processed"; "notebooks"; "models"].

Definition required_files : list string :=
  ["README.md"; "requirements.txt"; ".gitignore";
   "notebooks/01_data_ingestion.ipynb";
   "notebooks/02_data_cleaning.ipynb";
   "notebooks/03_feature_engineering.ipynb";
   "notebooks/04_model_training.ipynb"].

Definition validate_project_structure : M bool :=
  print StructureHeader;;
  r ← for_ (R := bool) required_dirs (λ dir_path,
         b ← os_path_isdir dir_path;
         if b : bool then print (DirOk dir_path);; continue
         else print (DirMissing dir_path);; return_ false);
  match r : option bool with
  | Some v => ret v
  | None =>
      r ← for_ (R := bool) required_files (λ file_path,
             b ← os_path_isfile file_path;
             if b : bool then print (FileOk file_path);; continue
             else print (FileMissing file_path);; return_ false);
      match r : option bool with
      | Some v => ret v
      | None => ret true
      end
  end.

(** ** Text operations *)

(** [str.lower] on one code point below 256: the letters A-Z and the
    Latin-1 capitals U+00C0-U+00DE (U+00D7, the multiplication sign, is
    not a letter) move up by 32; everything else is unchanged. *)
Definition lower_char (c : ascii) : ascii :=
  let n := N_of_ascii c in
  if ((65 <=? n) && (n <=? 90) || (192 <=? n) && (n <=? 222) && negb (n =? 215))%N
  then ascii_of_N (n + 32)
  else c.

Fixpoint lower (s : string) : string :=
  match s with
  | EmptyString => EmptyString
  | String c s' => String (lower_char c) (lower s')
  end.

Fixpoint starts_with (p s : string) : bool :=
  match p, s with
  | EmptyString, _ => true
  | String a p', String b s' => if decide (a = b) then starts_with p' s' else false
  | String _ _, EmptyString => false
  end.

(** [p in s] on two strings: [p] occurs in [s] as a contiguous run. *)
Fixpoint contains (p s : string) : bool :=
  starts_with p s ||
  match s with
  | EmptyString => false
  | String _ s' => contains p s'
  end.

(** ** JSON values and the Python operations used on them *)

(** A decoded string is a list of code points: [\uXXXX] escapes reach
    beyond 255. *)
Abbreviation pystr := (list N).

Definition codepoints (s : string) : pystr :=
  N_of_ascii <$> String.list_ascii_of_string s.

(** What [json.load] builds: [None], [bool], [int], [float] (kept as its
    literal), [str], [list], and [dict] as its items in insertion order. *)
Inductive json : Type :=
  | JNull
  | JBool (b : bool)
  | JInt (z : Z)
  | JFloat (literal : string)
  | JStr (s : pystr)
  | JArr (items : list json)
  | JObj (items : list (pystr * json)).

Definition type_name (v : json) : string :=
  match v with
  | JNull => "NoneType"
  | JBool _ => "bool"
  | JInt _ => "int"
  | JFloat _ => "float"
  | JStr _ => "str"
  | JArr _ => "list"
  | JObj _ => "dict"
  end.

Fixpoint list_starts_with (p l : pystr) : bool :=
  match p, l with
  | [], _ => true
  | a :: p', b :: l' => if decide (a = b) then list_starts_with p' l' else false
  | _ :: _, [] => false
  end.

Fixpoint list_contains (p l : pystr) : bool :=
  list_starts_with p l ||
  match l with
  | [] => false
  | _ :: l' => list_contains p l'
  end.

(** [d[key]] on the items of a dict. *)
Fixpoint dict_get (key : pystr) (items : list (pystr * json)) : option json :=
  match items with
  | [] => None
  | (k, v) :: items' => if decide (k = key) then Some v else dict_get key items'
  end.

Definition is_str (key : pystr) (v : json) : bool :=
  match v with
  | JStr s => bool_decide (s = key)
  | _ => false
  end.

(** [key in v] for a string [key]: a key of a dict, an element of a list, a
    substring of a string; the other types are not containers. *)
Definition py_in (key : pystr) (v : json) : exn + bool :=
  match v with
  | JObj items => inr (bool_decide (is_Some (dict_get key items)))
  | JArr items => inr (existsb (is_str key) items)
  | JStr s => inr (list_contains key s)
  | _ => inl (TypeError ("argument of type '" +:+ type_name v +:+ "' is not iterable"))
  end.

(** [v[key]] for a string [key]. *)
Definition py_getitem (v : json) (key : pystr) (key_repr : string) : exn + json :=
  match v with
  | JObj items =>
      match dict_get key items with
      | Some x => inr x
      | None => inl (KeyError key_repr)
      end
  | JArr _ => inl (TypeError "list indices must be integers or slices, not str")
  | JStr _ => inl (TypeError "string indices must be integers")
  | _ => inl (TypeError ("'" +:+ type_name v +:+ "' object is not subscriptable"))
  end.

(** [len(v)]. *)
Definition py_len (v : json) : exn + nat :=
  match v with
  | JObj items => inr (length items)
  | JArr items => inr (length items)
  | JStr s => inr (length s)
  | _ => inl (TypeError ("object of type '" +:+ type_name v +:+ "' has no len()"))
  end.

(** ** validate_notebooks *)

Definition notebooks : list string :=
  ["notebooks/01_data_ingestion.ipynb";
   "notebooks/02_data_cleaning.ipynb";
   "notebooks/03_feature_engineering.ipynb";
   "notebooks/04_model_training.ipynb"].

Section Notebooks.

(** [json.loads] on the text of a file. *)
Variable json_loads : string → exn + json.

(** [with open(notebook, 'r') as f: content = json.load(f)]. *)
Definition json_load (notebook : string) : M json :=
  text ← open_read notebook; lift (json_loads text).

(** The body of the [try] block for one notebook. *)
Definition notebook_body (notebook : string) : M (option bool) :=
  content ← json_load notebook;
  has_cells ← lift (py_in (codepoints "cells") content);
  if negb has_cells
  then print (NotebookNoCells notebook);; return_ false
  else
    cells ← lift (py_getitem content (codepoints "cells") "cells");
    cell_count ← lift (py_len cells);
    print (NotebookValid notebook cell_count);; continue.

(** The two [except] clauses, tried in order. *)
Definition notebook_handler (notebook : string) (e : exn) : M (option bool) :=
  if is_JSONDecodeError e
  then print (NotebookInvalidJSON notebook e);; return_ false
  else print (NotebookError notebook e);; return_ false.

Definition validate_notebooks : M bool :=
  print NotebooksHeader;;
  r ← for_ (R := bool) notebooks (λ notebook,
         try_except (notebook_body notebook) (notebook_handler notebook));
  match r : option bool with
  | Some v => ret v
  | None => ret true
  end.

End Notebooks.

(** ** validate_data_pipeline *)

(** The dict literal, as its items in insertion order (the order of
    [.items()]). *)
Definition expected_data_flow : list (string * list string) :=
  [("raw", ["customers.csv"; "products.csv"; "transactions.csv"]);
   ("stage", ["cleaned_customers.csv"; "cleaned_products.csv";
              "cleaned_transactions.csv"; "data_quality_summary.json"]);
   ("processed", ["customer_features.csv"; "training_data.csv"; "X_features.csv";
                  "y_target.csv"; "label_encoders.pkl";
                  "feature_engineering_summary.json"])].

Definition model_artifacts : list string :=
  ["retention_model.h5"; "scaler.pkl"; "feature_importance.csv";
   "model_metadata.json"; "training_history.csv"].

Definition readme_file (layer : string) : string :=
  "data/" +:+ layer +:+ "/README.md".

Definition models_readme : string := "models/README.md".

Definition validate_data_pipeline : M bool :=
  print PipelineHeader;;
  _ ← for_ (R := bool) expected_data_flow (λ '(layer, expected_files),
         b ← os_path_isfile (readme_file layer);
         if b : bool then print (LayerDocOk layer);; continue
         else print (LayerDocMissing layer);; continue);
  b ← os_path_isfile models_readme;
  (if b : bool then print ModelsDocOk else print ModelsDocMissing);;
  ret true.

(** ** validate_requirements *)

Definition essential_packages : list string :=
  ["pandas"; "numpy"; "tensorflow"; "scikit-learn";
   "matplotlib"; "seaborn"; "faker"; "jupyter"].

Definition validate_requirements : M bool :=
  print RequirementsHeader;;
  try_except
    (requirements ← open_read "requirements.txt";
     r ← for_ (R := bool) essential_packages (λ package,
            if contains package (lower requirements)
            then print (PackageOk package);; continue
            else print (PackageMissing package);; return_ false);
     match r : option bool with
     | Some v => ret v
     | None => ret true
     end)
    (λ e, print (RequirementsError e);; ret false).

(** ** validate_gitignore *)

Definition essential_patterns : list string :=
  ["__pycache__"; "*.pyc"; ".ipynb_checkpoints";
   "data/raw/*.csv"; "models/"; ".env"].

Definition validate_gitignore : M bool :=
  print GitignoreHeader;;
  try_except
    (gitignore ← open_read ".gitignore";
     _ ← for_ (R := bool) essential_patterns (λ pattern,
            if contains pattern gitignore
            then print (PatternOk pattern);; continue
            else print (PatternWarning pattern);; continue);
     ret true)
    (λ e, print (GitignoreError e);; ret false).

(** ** main and the script *)

Section Main.

Variable json_loads : string → exn + json.

Definition checks : list (M bool) :=
  [validate_project_structure;
   validate_notebooks json_loads;
   validate_data_pipeline;
   validate_requirements;
   validate_gitignore].

Definition main : M Z :=
  print Title;;
  print Rule;;
  all_checks_passed ← for_acc checks true (λ check all_checks_passed,
    ok ← check;
    if negb ok then ret false else ret all_checks_passed);
  print ClosingRule;;
  if all_checks_passed : bool
  then print BannerPassed;; print BannerStructureOk;; print BannerReady;; ret 0%Z
  else print BannerFailed;; print BannerFixIssues;; ret 1%Z.

(** How the process ends: [sys.exit] with the value of [main], or the
    interpreter's traceback for an exception nothing caught. *)
Inductive outcome : Type :=
  | Exit (status : Z)
  | Traceback (e : exn).

(** [if __name__ == "__main__": sys.exit(main())], started with nothing
    printed yet. *)
Definition script (files : gmap string node) : outcome * world :=
  match main (World files []) with
  | (inr status, w) => (Exit status, w)
  | (inl e, w) => (Traceback e, w)
  end.

End Main.

(** ** A JSON decoder after [json.decoder]

    [PyJson.loads] follows the grammar that [json.loads] accepts with its
    default settings: the JSON grammar, the constants [NaN], [Infinity] and
    [-Infinity], duplicate keys resolved as [dict] does (the last value, at
    the position of the first occurrence).  Error messages are kept without
    their position suffix.  The interpreter's resource limits (recursion
    depth, digits of an integer literal) are not part of it. *)
Module PyJson.

Definition chars := list ascii.

Definition is_char (c : ascii) (s : string) : bool :=
  match s with
  | String d EmptyString => bool_decide (c = d)
  | _ => false
  end.

Definition is_quote (c : ascii) : bool := (N_of_ascii c =? 34)%N.

Definition is_whitespace (c : ascii) : bool :=
  let n := N_of_ascii c in
  ((n =? 32) || (n =? 9) || (n =? 10) || (n =? 13))%N.

Fixpoint skip_whitespace (s : chars) : chars :=
  match s with
  | c :: s' => if is_whitespace c then skip_whitespace s' else s
  | [] => []
  end.

Definition is_digit (c : ascii) : bool :=
  let n := N_of_ascii c in ((48 <=? n) && (n <=? 57))%N.

Definition digit_value (c : ascii) : Z := Z.of_N (N_of_ascii c) - 48.

Definition hex_value (c : ascii) : option N :=
  let n := N_of_ascii c in
  if ((48 <=? n) && (n <=? 57))%N then Some (n - 48)%N
  else if ((97 <=? n) && (n <=? 102))%N then Some (n - 87)%N
  else if ((65 <=? n) && (n <=? 70))%N then Some (n - 55)%N
  else None.

(** The four hexadecimal digits of a [\uXXXX] escape. *)
Definition decode_uXXXX (a b c d : ascii) : option N :=
  match hex_value a, hex_value b, hex_value c, hex_value d with
  | Some x, Some y, Some z, Some t => Some (((x * 16 + y) * 16 + z) * 16 + t)%N
  | _, _, _, _ => None
  end.

(** The table [BACKSLASH] of one-character escapes. *)
Definition backslash (esc : ascii) : option N :=
  if is_quote esc then Some 34%N
  else if is_char esc "\" then Some 92%N
  else if is_char esc "/" then Some 47%N
  else if is_char esc "b" then Some 8%N
  else if is_char esc "f" then Some 12%N
  else if is_char esc "n" then Some 10%N
  else if is_char esc "r" then Some 13%N
  else if is_char esc "t" then Some 9%N
  else None.

Definition is_high_surrogate (u : N) : bool := ((55296 <=? u) && (u <=? 56319))%N.
Definition is_low_surrogate (u : N) : bool := ((56320 <=? u) && (u <=? 57343))%N.
Definition join_surrogates (hi lo : N) : N :=
  (65536 + ((hi - 55296) * 1024 + (lo - 56320)))%N.

(** [scanstring], entered after the opening quote; [acc] holds the code
    points read so far, last first. *)
Fixpoint scanstring (s : chars) (acc : pystr) : exn + (pystr * chars) :=
  match s with
  | [] => inl (JSONDecodeError "Unterminated string starting at")
  | c :: s' =>
      if is_quote c then inr (rev acc, s')
      else if is_char c "\" then
        match s' with
        | [] => inl (JSONDecodeError "Unterminated string starting at")
        | esc :: s'' =>
            if is_char esc "u" then
              match s'' with
              | a :: b :: c :: d :: s3 =>
                  match decode_uXXXX a b c d with
                  | None => inl (JSONDecodeError "Invalid \uXXXX escape")
                  | Some uni =>
                      match s3 with
                      | bs :: u :: e :: f :: g :: h :: s4 =>
                          if is_high_surrogate uni && is_char bs "\" && is_char u "u"
                          then
                            match decode_uXXXX e f g h with
                            | None => inl (JSONDecodeError "Invalid \uXXXX escape")
                            | Some uni2 =>
                                if is_low_surrogate uni2
                                then scanstring s4 (join_surrogates uni uni2 :: acc)
                                else scanstring s3 (uni :: acc)
                            end
                          else scanstring s3 (uni :: acc)
                      | _ => scanstring s3 (uni :: acc)
                      end
                  end
              | _ => inl (JSONDecodeError "Invalid \uXXXX escape")
              end
            else
              match backslash esc with
              | Some ch => scanstring s'' (ch :: acc)
              | None => inl (JSONDecodeError "Invalid \escape")
              end
        end
      else if (N_of_ascii c <? 32)%N
      then inl (JSONDecodeError "Invalid control character at")
      else scanstring s' (N_of_ascii c :: acc)
  end.

(** The longest run of decimal digits at the head of [s]. *)
Fixpoint take_digits (s : chars) : chars * chars :=
  match s with
  | c :: s' =>
      if is_digit c then let '(ds, r) := take_digits s' in (c :: ds, r)
      else ([], s)
  | [] => ([], [])
  end.

Definition int_of_digits (ds : chars) : Z :=
  fold_left (λ acc d, acc * 10 + digit_value d)%Z ds 0%Z.

(** [NUMBER_RE] matched at the head of [s]: an optional minus sign, then
    a single 0 or a nonzero digit followed by digits; an optional
    fraction, a dot and at least one digit; an optional exponent, e or E,
    an optional sign and at least one digit.  An integer literal becomes
    a [JInt], a literal with a fraction or an exponent a [JFloat]. *)
Definition match_number (s : chars) : option (json * chars) :=
  let '(sign, s1) :=
    match s with
    | c :: s' => if is_char c "-" then ([c], s') else ([], s)
    | [] => ([], [])
    end in
  match s1 with
  | [] => None
  | d :: s2 =>
      if is_digit d then
        let '(integer, s3) :=
          if is_char d "0" then ([d], s2)
          else let '(ds, r) := take_digits s2 in (d :: ds, r) in
        let '(frac, s4) :=
          match s3 with
          | dot :: s3' =>
              if is_char dot "." then
                match take_digits s3' with
                | ([], _) => ([], s3)
                | (ds, r) => (dot :: ds, r)
                end
              else ([], s3)
          | [] => ([], s3)
          end in
        let '(exp, s5) :=
          match s4 with
          | e :: s4' =>
              if is_char e "e" || is_char e "E" then
                let '(esign, s4'') :=
                  match s4' with
                  | c :: r => if is_char c "-" || is_char c "+" then ([c], r) else ([], s4')
                  | [] => ([], s4')
                  end in
                match take_digits s4'' with
                | ([], _) => ([], s4)
                | (ds, r) => (e :: esign ++ ds, r)
                end
              else ([], s4)
          | [] => ([], s4)
          end in
        match frac, exp with
        | [], [] =>
            let n := int_of_digits integer in
            Some (JInt (if sign is [] then n else (- n)%Z), s5)
        | _, _ =>
            Some (JFloat (String.string_of_list_ascii (sign ++ integer ++ frac ++ exp)), s5)
        end
      else None
  end.

(** [s] without the prefix [p], when it starts with it. *)
Fixpoint strip_prefix (p : chars) (s : chars) : option chars :=
  match p, s with
  | [], _ => Some s
  | a :: p', b :: s' => if bool_decide (a = b) then strip_prefix p' s' else None
  | _ :: _, [] => None
  end.

Definition literal (word : string) (v : json) (s : chars) : option (json * chars) :=
  r ← strip_prefix (String.list_ascii_of_string word) s; Some (v, r).

(** [d[key] = v] on the items of a dict. *)
Fixpoint dict_set (key : pystr) (v : json) (items : list (pystr * json))
    : list (pystr * json) :=
  match items with
  | [] => [(key, v)]
  | (k, x) :: items' =>
      if decide (k = key) then (k, v) :: items'
      else (k, x) :: dict_set key v items'
  end.

Definition expecting (what : string) : exn := JSONDecodeError ("Expecting " +:+ what).

(** [scan_once], with [JSONArray] and [JSONObject] entered after the first
    item is known to be there.  [fuel] bounds the depth of the calls; a
    decoder out of fuel raises as the interpreter does at its recursion
    limit. *)
Fixpoint scan_once (fuel : nat) (s : chars) : exn + (json * chars) :=
  match fuel with
  | O => inl RecursionError
  | S fuel' =>
      match s with
      | [] => inl (expecting "value")
      | c :: s' =>
          if is_quote c then
            match scanstring s' [] with
            | inl e => inl e
            | inr (str, r) => inr (JStr str, r)
            end
          else if is_char c "{" then
            match skip_whitespace s' with
            | d :: r =>
                if is_char d "}" then inr (JObj [], r)
                else if is_quote d then object_items fuel' r []
                else inl (expecting "property name enclosed in double quotes")
            | [] => inl (expecting "property name enclosed in double quotes")
            end
          else if is_char c "[" then
            match skip_whitespace s' with
            | d :: r =>
                if is_char d "]" then inr (JArr [], r)
                else array_items fuel' (d :: r) []
            | [] => inl (expecting "value")
            end
          else
            match literal "null" JNull s with
            | Some r => inr r
            | None =>
            match literal "true" (JBool true) s with
            | Some r => inr r
            | None =>
            match literal "false" (JBool false) s with
            | Some r => inr r
            | None =>
            match match_number s with
            | Some r => inr r
            | None =>
            match literal "NaN" (JFloat "nan") s with
            | Some r => inr r
            | None =>
            match literal "Infinity" (JFloat "inf") s with
            | Some r => inr r
            | None =>
            match literal "-Infinity" (JFloat "-inf") s with
            | Some r => inr r
            | None => inl (expecting "value")
            end end end end end end end
      end
  end

(** The loop of [JSONArray]: [s] starts at the next value, [acc] holds the
    values read so far, last first. *)
with array_items (fuel : nat) (s : chars) (acc : list json) : exn + (json * chars) :=
  match fuel with
  | O => inl RecursionError
  | S fuel' =>
      match scan_once fuel' s with
      | inl e => inl e
      | inr (value, r) =>
          match skip_whitespace r with
          | d :: r' =>
              if is_char d "]" then inr (JArr (rev (value :: acc)), r')
              else if is_char d ","
              then array_items fuel' (skip_whitespace r') (value :: acc)
              else inl (expecting "',' delimiter")
          | [] => inl (expecting "',' delimiter")
          end
      end
  end

(** The loop of [JSONObject]: [s] starts after the opening quote of the
    next key, [items] is the dict built so far. *)
with object_items (fuel : nat) (s : chars) (items : list (pystr * json))
    : exn + (json * chars) :=
  match fuel with
  | O => inl RecursionError
  | S fuel' =>
      match scanstring s [] with
      | inl e => inl e
      | inr (key, r) =>
          match skip_whitespace r with
          | colon :: r' =>
              if is_char colon ":" then
                match scan_once fuel' (skip_whitespace r') with
                | inl e => inl e
                | inr (value, r'') =>
                    let items' := dict_set key value items in
                    match skip_whitespace r'' with
                    | d :: r3 =>
                        if is_char d "}" then inr (JObj items', r3)
                        else if is_char d "," then
                          match skip_whitespace r3 with
                          | q :: r4 =>
                              if is_quote q then object_items fuel' r4 items'
                              else inl (expecting "property name enclosed in double quotes")
                          | [] => inl (expecting "property name enclosed in double quotes")
                          end
                        else inl (expecting "',' delimiter")
                    | [] => inl (expecting "',' delimiter")
                    end
                end
              else inl (expecting "':' delimiter")
          | [] => inl (expecting "':' delimiter")
          end
      end
  end.

(** [json.loads]: one value, surrounded by optional whitespace. *)
Definition loads (text : string) : exn + json :=
  let s := String.list_ascii_of_string text in
  match scan_once (2 * length s + 2) (skip_whitespace s) with
  | inl e => inl e
  | inr (obj, r) =>
      match skip_whitespace r with
      | [] => inr obj
      | _ :: _ => inl (JSONDecodeError "Extra data")
      end
  end.

End PyJson.

(** * What each checker computes

    Each checker is characterised by a pure function of the filesystem for
    the value it returns and another for the lines it prints. *)

(** The lines of a loop that reports every item and stops at the first one
    failing its test. *)
Fixpoint check_lines {A} (test : A → bool) (ok bad : A → line) (xs : list A)
    : list line :=
  match xs with
  | [] => []
  | x :: xs' => if test x then ok x :: check_lines test ok bad xs' else [bad x]
  end.

Definition report_line {A} (test : A → bool) (ok bad : A → line) (x : A) : line :=
  if test x then ok x else bad x.

(** ** Structure *)

Definition structure_ok (files : gmap string node) : bool :=
  forallb (isdir files) required_dirs && forallb (isfile files) required_files.

Definition structure_lines (files : gmap string node) : list line :=
  StructureHeader ::
  check_lines (isdir files) DirOk DirMissing required_dirs ++
  (if forallb (isdir files) required_dirs
   then check_lines (isfile files) FileOk FileMissing required_files
   else []).

(** ** Notebooks *)

Section NotebookOutcome.

Variable json_loads : string → exn + json.

(** What the [try] block does with one notebook: it raises, or finds no
    ["cells"] ([None]), or counts the cells. *)
Definition notebook_outcome (files : gmap string node) (notebook : string)
    : exn + option nat :=
  match read_text files notebook with
  | inl e => inl e
  | inr text =>
      match json_loads text with
      | inl e => inl e
      | inr content =>
          match py_in (codepoints "cells") content with
          | inl e => inl e
          | inr false => inr None
          | inr true =>
              match py_getitem content (codepoints "cells") "cells" with
              | inl e => inl e
              | inr cells =>
                  match py_len cells with
                  | inl e => inl e
                  | inr cell_count => inr (Some cell_count)
                  end
              end
          end
      end
  end.

Definition notebook_passes (files : gmap string node) (notebook : string) : bool :=
  match notebook_outcome files notebook with
  | inr (Some _) => true
  | _ => false
  end.

Definition notebook_line (files : gmap string node) (notebook : string) : line :=
  match notebook_outcome files notebook with
  | inr (Some cell_count) => NotebookValid notebook cell_count
  | inr None => NotebookNoCells notebook
  | inl e =>
      if is_JSONDecodeError e then NotebookInvalidJSON notebook e
      else NotebookError notebook e
  end.

Definition notebooks_ok (files : gmap string node) : bool :=
  forallb (notebook_passes files) notebooks.

Definition notebooks_lines (files : gmap string node) : list line :=
  NotebooksHeader ::
  check_lines (notebook_passes files) (notebook_line files) (notebook_line files)
    notebooks.

End NotebookOutcome.

(** ** Pipeline layout *)

Definition layer_documented (files : gmap string node)
    (item : string * list string) : bool :=
  isfile files (readme_file item.1).

Definition pipeline_lines (files : gmap string node) : list line :=
  PipelineHeader ::
  map (report_line (layer_documented files)
         (λ item, LayerDocOk item.1) (λ item, LayerDocMissing item.1))
      expected_data_flow ++
  [if isfile files models_readme then ModelsDocOk else ModelsDocMissing].

(** ** Requirements *)

Definition package_specified (requirements package : string) : bool :=
  contains package (lower requirements).

Definition requirements_ok (files : gmap string node) : bool :=
  match read_text files "requirements.txt" with
  | inl _ => false
  | inr requirements => forallb (package_specified requirements) essential_packages
  end.

Definition requirements_lines (files : gmap string node) : list line :=
  RequirementsHeader ::
  match read_text files "requirements.txt" with
  | inl e => [RequirementsError e]
  | inr requirements =>
      check_lines (package_specified requirements) PackageOk PackageMissing
        essential_packages
  end.

(** ** Ignore patterns *)

Definition gitignore_ok (files : gmap string node) : bool :=
  match read_text files ".gitignore" with
  | inl _ => false
  | inr _ => true
  end.

Definition gitignore_lines (files : gmap string node) : list line :=
  GitignoreHeader ::
  match read_text files ".gitignore" with
  | inl e => [GitignoreError e]
  | inr gitignore =>
      map (report_line (λ pattern, contains pattern gitignore)
             PatternOk PatternWarning)
          essential_patterns
  end.

(** ** The orchestrator *)

Section Orchestrator.

Variable json_loads : string → exn + json.

Definition all_ok (files : gmap string node) : bool :=
  structure_ok files && notebooks_ok json_loads files && requirements_ok files
  && gitignore_ok files.

Definition checker_lines (files : gmap string node) : list line :=
  structure_lines files ++ notebooks_lines json_loads files ++
  pipeline_lines files ++ requirements_lines files ++ gitignore_lines files.

Definition banner (passed : bool) : list line :=
  if passed then [BannerPassed; BannerStructureOk; BannerReady]
  else [BannerFailed; BannerFixIssues].

Definition main_lines (files : gmap string node) : list line :=
  [Title; Rule] ++ checker_lines files ++ [ClosingRule] ++ banner (all_ok files).

End Orchestrator.

(** * The vocabulary of the specification *)

(** A checker returns [a] on a filesystem: whatever has been printed before
    the call, the call ends with [return a]. *)
Definition returns {A} (check : M A) (files : gmap string node) (a : A) : Prop :=
  ∀ out, (check (World files out)).1 = inr a.

(** The lines a checker prints when called on a filesystem. *)
Definition printed {A} (check : M A) (files : gmap string node) : list line :=
  stdout (check (World files [])).2.

(** The process ended with status 0. *)
Definition exited_zero (o : outcome) : bool :=
  match o with
  | Exit 0 => true
  | _ => false
  end.

(** [p] occurs in [s]: exact, case-sensitive substring containment. *)
Definition occurs (p s : string) : Prop :=
  ∃ pre post, s = pre +:+ p +:+ post.

(** [name] occurs in [text] as a case-insensitive substring: some run of
    [text] equals [name] once both are put in lower case. *)
Definition ci_occurs (name text : string) : Prop :=
  ∃ pre mid post, text = pre +:+ mid +:+ post ∧ lower mid = lower name.

(** The README files the Pipeline Layout Checker looks for. *)
Definition pipeline_readmes : list string :=
  map (λ item : string * list string, readme_file item.1) expected_data_flow
  ++ [models_readme].

(** Every path one of the other four checkers tests or opens. *)
Definition gating_paths : list string :=
  required_dirs ++ required_files ++ notebooks ++ ["requirements.txt"; ".gitignore"].

(** The values [len] accepts among those a decoder builds: strings,
    lists and objects. *)
Definition has_length (v : json) : bool :=
  match v with
  | JStr _ | JArr _ | JObj _ => true
  | _ => false
  end.

Section NotebookVocabulary.

Variable json_loads : string → exn + json.

(** The notebook can be read and parses as a JSON object containing a
    ["cells"] key. *)
Definition parses_with_cells_key (files : gmap string node) (notebook : string)
    : Prop :=
  ∃ text items,
    read_text files notebook = inr text ∧
    json_loads text = inr (JObj items) ∧
    is_Some (dict_get (codepoints "cells") items).

(** The Notebook Checker as the specification words it: true exactly when
    every notebook reads and parses with a ["cells"] key. *)
Definition notebook_checker_as_specified (files : gmap string node) : Prop :=
  (validate_notebooks json_loads (World files [])).1 = inr true ↔
  Forall (parses_with_cells_key files) notebooks.

(** The notebook reads and parses as an object whose ["cells"] entry has
    a length [n]: it is a list, an object or a string. *)
Definition has_sized_cells (files : gmap string node) (notebook : string)
    (n : nat) : Prop :=
  ∃ text items cells,
    read_text files notebook = inr text ∧
    json_loads text = inr (JObj items) ∧
    dict_get (codepoints "cells") items = Some cells ∧
    py_len cells = inr n.

(** The notebook is missing or unreadable, or is valid JSON whose
    top-level value is not an object with a list-valued ["cells"]. *)
Definition lacks_cell_list (files : gmap string node) (notebook : string) : Prop :=
  (∃ e, read_text files notebook = inl e) ∨
  (∃ text content,
     read_text files notebook = inr text ∧
     json_loads text = inr content ∧
     ¬ ∃ items cells,
         content = JObj items ∧
         dict_get (codepoints "cells") items = Some (JArr cells)).

(** The catch-all behaviour as the specification words it. *)
Definition catch_all_as_specified (files : gmap string node) : Prop :=
  (∃ notebook, notebook ∈ notebooks ∧ lacks_cell_list files notebook) →
  (validate_notebooks json_loads (World files [])).1 = inr false.

(** The failure modes the catch-all really maps to false: the notebook
    is missing or unreadable, the decoder raises, or the decoded value is
    not an object whose ["cells"] entry has a length. *)
Definition unusable (files : gmap string node) (notebook : string) : Prop :=
  (∃ e, read_text files notebook = inl e) ∨
  (∃ text e, read_text files notebook = inr text ∧ json_loads text = inl e) ∨
  (∃ text content,
     read_text files notebook = inr text ∧
     json_loads text = inr content ∧
     ¬ ∃ items cells n,
         content = JObj items ∧
         dict_get (codepoints "cells") items = Some cells ∧
         py_len cells = inr n).

End NotebookVocabulary.

(** The Ignore-Pattern Checker as the specification words it, for a given
    number of fixed patterns. *)
Definition gitignore_checker_as_specified (count : nat)
    (files : gmap string node) : Prop :=
  length essential_patterns = count ∧
  ∀ out,
    let r := validate_gitignore (World files out) in
    (r.1 = inr true ↔ readable files ".gitignore") ∧
    (r.1 = inr false ↔ ∃ e, read_text files ".gitignore" = inl e) ∧
    (∀ e, read_text files ".gitignore" = inl e →
       stdout r.2 = out ++ [GitignoreHeader; GitignoreError e]) ∧
    (∀ gitignore, read_text files ".gitignore" = inr gitignore →
       ∃ lines,
         stdout r.2 = out ++ GitignoreHeader :: lines ∧
         length lines = count ∧
         ∀ pattern, pattern ∈ essential_patterns →
           (PatternOk pattern ∈ lines ↔ occurs pattern gitignore) ∧
           (PatternWarning pattern ∈ lines ↔ ¬ occurs pattern gitignore)).

(** * Concrete projects *)

(** A text written with apostrophes where the file has double quotes. *)
Fixpoint dq (s : string) : string :=
  match s with
  | EmptyString => EmptyString
  | String c s' =>
      String (if (N_of_ascii c =? 39)%N then ascii_of_N 34 else c) (dq s')
  end.

(** The expected layout, with the same text in the four notebooks. *)
Definition project (notebook requirements gitignore : string) : gmap string node :=
  list_to_map
    (((λ dir_path, (dir_path, Directory)) <$> required_dirs) ++
     [("README.md", RegularFile (inr "# E-commerce Retention Predictor"));
      ("requirements.txt", RegularFile (inr requirements));
      (".gitignore", RegularFile (inr gitignore))] ++
     ((λ notebook_path, (notebook_path, RegularFile (inr notebook))) <$> notebooks)).

Definition notebook_text : string :=
  dq "{'cells': [], 'metadata': {}, 'nbformat': 4, 'nbformat_minor': 5}".

Definition requirements_text : string :=
  "pandas>=1.5.0
numpy>=1.23.0
TensorFlow>=2.10.0
scikit-learn>=1.1.0
matplotlib
seaborn
Faker
jupyter
".

Definition gitignore_text : string :=
  "__pycache__/
*.pyc
.ipynb_checkpoints
data/raw/*.csv
models/
.env
".

Definition complete_project : gmap string node :=
  project notebook_text requirements_text gitignore_text.

(** A manifest where [numpy] occurs only inside [numpydoc] and
    [tensorflow] only in a comment. *)
Definition requirements_with_numpydoc : string :=
  "pandas
numpydoc
# tensorflow is installed separately
scikit-learn
matplotlib
seaborn
faker
jupyter
".

(** The line printed for the first notebook, and the value returned, for
    the same text in all four notebooks. *)
Definition first_report (notebook : string) : exn + bool * option line :=
  let files := project notebook requirements_text gitignore_text in
  match validate_notebooks PyJson.loads (World files []) with
  | (inr b, w) => inr (b, stdout w !! 1%nat)
  | (inl e, _) => inl e
  end.


(** * Further vocabulary *)

(** The lines that report a failure of one of the four checkers that can
    return false.  The documentation lines of the Pipeline Layout Checker
    and the warnings of the Ignore-Pattern Checker are not among them. *)
Definition gating_failure (l : line) : bool :=
  match l with
  | DirMissing _ | FileMissing _
  | NotebookNoCells _ | NotebookInvalidJSON _ _ | NotebookError _ _
  | PackageMissing _ | RequirementsError _
  | GitignoreError _ => true
  | _ => false
  end.

(** How many failure reports a run printed. *)
Definition failures (lines : list line) : nat :=
  length (List.filter gating_failure lines).

Definition is_KeyError (e : exn) : bool :=
  match e with KeyError _ => true | _ => false end.

(** A line of the Notebook Checker that reports a [KeyError]. *)
Definition reports_KeyError (l : line) : bool :=
  match l with
  | NotebookError _ e => is_KeyError e
  | NotebookInvalidJSON _ e => is_KeyError e
  | _ => false
  end.

(** Two filesystems agree on a list of paths. *)
Definition agree_on (paths : list string) (files files' : gmap string node) : Prop :=
  ∀ path, path ∈ paths → files' !! path = files !! path.

(** A project with the content of [README.md] and the text of
    [.gitignore] replaced. *)
Definition rewritten_project (files : gmap string node)
    (readme : exn + string) (gitignore : string) : gmap string node :=
  <["README.md" := RegularFile readme]>
    (<[".gitignore" := RegularFile (inr gitignore)]> files).

(** The lines the source prints with the cross marker: the failure reports
    of the checkers, the two missing-documentation lines of the Pipeline
    Layout Checker, and the failure banner. *)
Definition cross_marked (l : line) : bool :=
  match l with
  | DirMissing _ | FileMissing _
  | NotebookNoCells _ | NotebookInvalidJSON _ _ | NotebookError _ _
  | LayerDocMissing _ | ModelsDocMissing
  | PackageMissing _ | RequirementsError _
  | GitignoreError _
  | BannerFailed => true
  | _ => false
  end.

(** The cross-marked lines of the Pipeline Layout Checker. *)
Definition missing_documentation (l : line) : bool :=
  match l with
  | LayerDocMissing _ | ModelsDocMissing => true
  | _ => false
  end.

(** A cross-marked line other than a missing-documentation line. *)
Definition failure_mark (l : line) : bool :=
  cross_marked l && negb (missing_documentation l).

(** How many lines of a run satisfy a test. *)
Definition tally (f : line → bool) (lines : list line) : nat :=
  length (List.filter f lines).
(** * Running the checkers *)

Ltac run := unfold mbind, M_bind, mret, M_ret, bind, try_except, lift, raise,
  return_, continue, ret, print, os_path_isdir, os_path_isfile, open_read; simpl.

Lemma run_bind {A B} (m : M A) (k : A → M B) w a w' :
  m w = (inr a, w') → (m ≫= k) w = k a w'.
Proof. intros H. unfold mbind, M_bind, bind. by rewrite H. Qed.

Lemma run_bind_raise {A B} (m : M A) (k : A → M B) w e w' :
  m w = (inl e, w') → (m ≫= k) w = (inl e, w').
Proof. intros H. unfold mbind, M_bind, bind. by rewrite H. Qed.

Lemma run_print {B} l (k : () → M B) files out :
  (print l ≫= k) (World files out) = k () (World files (out ++ [l])).
Proof. reflexivity. Qed.

Lemma for_check_run {A} (test : A → bool) (ok bad : A → line)
    (body : A → M (option bool)) (files : gmap string node) :
  (∀ x out, body x (World files out) =
      if test x then (inr None, World files (out ++ [ok x]))
      else (inr (Some false), World files (out ++ [bad x]))) →
  ∀ xs out, for_ xs body (World files out) =
    (inr (if forallb test xs then None else Some false),
     World files (out ++ check_lines test ok bad xs)).
Proof.
  intros Hbody xs. induction xs as [|x xs IH]; intros out; simpl.
  - run. by rewrite app_nil_r.
  - unfold mbind, M_bind, bind. rewrite Hbody.
    destruct (test x); simpl.
    + rewrite IH. by rewrite <- app_assoc.
    + reflexivity.
Qed.

Lemma for_report_run {A} (test : A → bool) (ok bad : A → line)
    (body : A → M (option bool)) (files : gmap string node) :
  (∀ x out, body x (World files out) =
      (inr None, World files (out ++ [report_line test ok bad x]))) →
  ∀ xs out, for_ xs body (World files out) =
    (inr None, World files (out ++ map (report_line test ok bad) xs)).
Proof.
  intros Hbody xs. induction xs as [|x xs IH]; intros out; simpl.
  - run. by rewrite app_nil_r.
  - unfold mbind, M_bind, bind. rewrite Hbody, IH. by rewrite <- app_assoc.
Qed.

Lemma validate_project_structure_run files out :
  validate_project_structure (World files out) =
    (inr (structure_ok files), World files (out ++ structure_lines files)).
Proof.
  unfold validate_project_structure, structure_ok, structure_lines.
  rewrite run_print.
  erewrite run_bind.
  2:{ apply (for_check_run (isdir files) DirOk DirMissing).
      intros x o. run. by destruct (isdir files x). }
  destruct (forallb (isdir files) required_dirs); cbn [andb].
  - erewrite run_bind.
    2:{ apply (for_check_run (isfile files) FileOk FileMissing).
        intros x o. run. by destruct (isfile files x). }
    rewrite <- !app_assoc.
    destruct (forallb (isfile files) required_files); reflexivity.
  - rewrite app_nil_r, <- app_assoc. reflexivity.
Qed.

Section NotebooksRun.

Variable json_loads : string → exn + json.

Lemma notebook_iteration_run files notebook out :
  try_except (notebook_body json_loads notebook) (notebook_handler notebook)
    (World files out) =
  if notebook_passes json_loads files notebook
  then (inr None, World files (out ++ [notebook_line json_loads files notebook]))
  else (inr (Some false),
        World files (out ++ [notebook_line json_loads files notebook])).
Proof.
  unfold notebook_passes, notebook_line, notebook_outcome, notebook_body,
    notebook_handler, json_load.
  run.
  destruct (read_text files notebook) as [e|text]; simpl.
  { by destruct (is_JSONDecodeError e). }
  destruct (json_loads text) as [e|content]; simpl.
  { by destruct (is_JSONDecodeError e). }
  destruct (py_in _ content) as [e|[]]; simpl.
  { by destruct (is_JSONDecodeError e). }
  2: done.
  destruct (py_getitem content _ _) as [e|cells]; simpl.
  { by destruct (is_JSONDecodeError e). }
  destruct (py_len cells) as [e|n]; simpl.
  { by destruct (is_JSONDecodeError e). }
  done.
Qed.

Lemma validate_notebooks_run files out :
  validate_notebooks json_loads (World files out) =
    (inr (notebooks_ok json_loads files),
     World files (out ++ notebooks_lines json_loads files)).
Proof.
  unfold validate_notebooks, notebooks_ok, notebooks_lines.
  rewrite run_print.
  erewrite run_bind.
  2:{ apply (for_check_run (notebook_passes json_loads files)
               (notebook_line json_loads files) (notebook_line json_loads files)).
      intros x o. apply notebook_iteration_run. }
  rewrite <- app_assoc.
  destruct (forallb (notebook_passes json_loads files) notebooks); reflexivity.
Qed.

End NotebooksRun.

Lemma validate_data_pipeline_run files out :
  validate_data_pipeline (World files out) =
    (inr true, World files (out ++ pipeline_lines files)).
Proof.
  unfold validate_data_pipeline, pipeline_lines.
  rewrite run_print.
  erewrite run_bind.
  2:{ apply (for_report_run (layer_documented files)
               (λ item, LayerDocOk item.1) (λ item, LayerDocMissing item.1)).
      intros [layer expected_files] o. unfold report_line, layer_documented. run.
      by destruct (isfile files (readme_file layer)). }
  erewrite run_bind by reflexivity. cbn [fs].
  destruct (isfile files models_readme); rewrite run_print;
    unfold ret; rewrite <- !app_assoc; reflexivity.
Qed.

Lemma validate_requirements_run files out :
  validate_requirements (World files out) =
    (inr (requirements_ok files), World files (out ++ requirements_lines files)).
Proof.
  unfold validate_requirements, requirements_ok, requirements_lines.
  rewrite run_print. unfold try_except.
  destruct (read_text files "requirements.txt") as [e|requirements] eqn:Hread.
  - erewrite run_bind_raise by (unfold open_read; simpl; by rewrite Hread).
    run. by rewrite <- app_assoc.
  - erewrite run_bind by (unfold open_read; simpl; by rewrite Hread).
    erewrite run_bind.
    2:{ apply (for_check_run (package_specified requirements) PackageOk PackageMissing).
        intros x o. unfold package_specified. run.
        by destruct (contains x (lower requirements)). }
    rewrite <- app_assoc.
    destruct (forallb (package_specified requirements) essential_packages);
      reflexivity.
Qed.

Lemma validate_gitignore_run files out :
  validate_gitignore (World files out) =
    (inr (gitignore_ok files), World files (out ++ gitignore_lines files)).
Proof.
  unfold validate_gitignore, gitignore_ok, gitignore_lines.
  rewrite run_print. unfold try_except.
  destruct (read_text files ".gitignore") as [e|gitignore] eqn:Hread.
  - erewrite run_bind_raise by (unfold open_read; simpl; by rewrite Hread).
    run. by rewrite <- app_assoc.
  - erewrite run_bind by (unfold open_read; simpl; by rewrite Hread).
    erewrite run_bind.
    2:{ apply (for_report_run (λ pattern, contains pattern gitignore)
                 PatternOk PatternWarning).
        intros x o. unfold report_line. run.
        by destruct (contains x gitignore). }
    run. by rewrite <- app_assoc.
Qed.

Section MainRun.

Variable json_loads : string → exn + json.

Lemma check_step (check : M bool) (acc ok : bool) w w' :
  check w = (inr ok, w') →
  (check ≫= λ ok, if negb ok then ret false else ret acc) w =
    (inr (acc && ok), w').
Proof.
  intros H. erewrite run_bind by exact H. by destruct ok, acc.
Qed.

Lemma main_run files out :
  main json_loads (World files out) =
    (inr (if all_ok json_loads files then 0%Z else 1%Z),
     World files (out ++ main_lines json_loads files)).
Proof.
  unfold main, checks, main_lines, checker_lines, all_ok.
  rewrite !run_print. cbn [for_acc].
  erewrite run_bind.
  2:{ erewrite run_bind by apply check_step, validate_project_structure_run.
      erewrite run_bind by apply check_step, validate_notebooks_run.
      erewrite run_bind by apply check_step, validate_data_pipeline_run.
      erewrite run_bind by apply check_step, validate_requirements_run.
      erewrite run_bind by apply check_step, validate_gitignore_run.
      reflexivity. }
  rewrite run_print. cbn [andb]. rewrite andb_true_r.
  destruct (_ && _ && _ && _); cbn [banner];
    rewrite !run_print; unfold ret; rewrite <- !app_assoc; reflexivity.
Qed.

Lemma script_run files :
  script json_loads files =
    (Exit (if all_ok json_loads files then 0%Z else 1%Z),
     World files (main_lines json_loads files)).
Proof. unfold script. by rewrite main_run. Qed.

End MainRun.

(** A checker that runs as a pure function of the filesystem returns that
    function's value and prints that function's lines. *)
Lemma returns_run {A} (check : M A) files (v : A) lines :
  (∀ out, check (World files out) = (inr v, World files (out ++ lines))) →
  ∀ a, returns check files a ↔ a = v.
Proof.
  intros Hrun a. unfold returns. split.
  - intros H. specialize (H []). rewrite Hrun in H. simpl in H. congruence.
  - intros -> out. by rewrite Hrun.
Qed.

Lemma returns_structure files b :
  returns validate_project_structure files b ↔ b = structure_ok files.
Proof. eapply returns_run, validate_project_structure_run. Qed.

Lemma returns_notebooks json_loads files b :
  returns (validate_notebooks json_loads) files b ↔ b = notebooks_ok json_loads files.
Proof. eapply returns_run, validate_notebooks_run. Qed.

Lemma returns_pipeline files b :
  returns validate_data_pipeline files b ↔ b = true.
Proof. eapply returns_run, validate_data_pipeline_run. Qed.

Lemma returns_requirements files b :
  returns validate_requirements files b ↔ b = requirements_ok files.
Proof. eapply returns_run, validate_requirements_run. Qed.

Lemma returns_gitignore files b :
  returns validate_gitignore files b ↔ b = gitignore_ok files.
Proof. eapply returns_run, validate_gitignore_run. Qed.

(** * Lists and texts *)

Lemma forallb_Forall_true {A} (test : A → bool) xs :
  forallb test xs = true ↔ Forall (λ x, test x = true) xs.
Proof.
  induction xs as [|x xs IH]; simpl.
  - split; [constructor | done].
  - rewrite andb_true_iff, IH, Forall_cons. done.
Qed.

Lemma forallb_false_elem {A} (test : A → bool) xs x :
  x ∈ xs → test x = false → forallb test xs = false.
Proof.
  intros Hin Hx. destruct (forallb test xs) eqn:Hall; [|done].
  apply forallb_Forall_true in Hall. rewrite Forall_forall in Hall.
  specialize (Hall x Hin). congruence.
Qed.

Lemma check_lines_all {A} (test : A → bool) ok bad xs :
  forallb test xs = true → check_lines test ok bad xs = map ok xs.
Proof.
  induction xs as [|x xs IH]; simpl; [done|].
  intros [Hx Hxs]%andb_true_iff. rewrite Hx. by rewrite IH.
Qed.

Lemma check_lines_app {A} (test : A → bool) ok bad pre rest :
  forallb test pre = true →
  check_lines test ok bad (pre ++ rest) = map ok pre ++ check_lines test ok bad rest.
Proof.
  induction pre as [|y pre IH]; simpl; [done|].
  intros [Hy Hpre]%andb_true_iff. rewrite Hy. by rewrite IH.
Qed.

Lemma check_lines_first {A} (test : A → bool) ok bad pre x post :
  forallb test pre = true → test x = false →
  forallb test (pre ++ x :: post) = false ∧
  check_lines test ok bad (pre ++ x :: post) = map ok pre ++ [bad x].
Proof.
  induction pre as [|y pre IH]; simpl.
  - intros _ Hx. by rewrite Hx.
  - intros [Hy Hpre]%andb_true_iff Hx. rewrite Hy.
    destruct (IH Hpre Hx) as [-> ->]. done.
Qed.

Lemma isdir_true files path :
  isdir files path = true ↔ files !! path = Some Directory.
Proof.
  unfold isdir. destruct (files !! path) as [[]|]; split; congruence.
Qed.

Lemma isfile_true files path :
  isfile files path = true ↔ ∃ content, files !! path = Some (RegularFile content).
Proof.
  unfold isfile. destruct (files !! path) as [[|c|c]|]; split; intros H;
    try discriminate; eauto; destruct H as [? H]; discriminate.
Qed.

Lemma isdir_delete files path : isdir (delete path files) path = false.
Proof. unfold isdir. by rewrite lookup_delete_eq. Qed.

Lemma isfile_delete files path : isfile (delete path files) path = false.
Proof. unfold isfile. by rewrite lookup_delete_eq. Qed.

Lemma append_String c a b : String c a +:+ b = String c (a +:+ b).
Proof. reflexivity. Qed.

Lemma append_empty b : "" +:+ b = b.
Proof. reflexivity. Qed.

Lemma starts_with_spec p s :
  starts_with p s = true ↔ ∃ post, s = p +:+ post.
Proof.
  revert s. induction p as [|a p IH]; intros s; simpl.
  - split; eauto.
  - destruct s as [|b s].
    + split; [done | intros [post H]; discriminate].
    + destruct (decide (a = b)) as [->|Hne].
      * rewrite IH. split; intros [post H]; exists post;
          rewrite append_String in *; congruence.
      * split; [done | intros [post H]; rewrite append_String in H; congruence].
Qed.

Lemma contains_spec p s : contains p s = true ↔ occurs p s.
Proof.
  unfold occurs. induction s as [|c s IH]; simpl.
  - rewrite orb_false_r, starts_with_spec. split.
    + intros [post H]. by exists "", post.
    + intros [[|d pre] [post H]]; [eauto | discriminate].
  - rewrite orb_true_iff, IH, starts_with_spec. split.
    + intros [[post H] | (pre & post & H)].
      * by exists "", post.
      * exists (String c pre), post. rewrite append_String. by rewrite H.
    + intros [[|d pre] [post H]].
      * left. eauto.
      * right. exists pre, post. rewrite append_String in H. congruence.
Qed.

Lemma lower_app a b : lower (a +:+ b) = lower a +:+ lower b.
Proof.
  induction a as [|c a IH]; [done|].
  rewrite append_String. simpl. by rewrite IH.
Qed.

Lemma lower_app_inv s a b :
  lower s = a +:+ b → ∃ a' b', s = a' +:+ b' ∧ lower a' = a ∧ lower b' = b.
Proof.
  revert s. induction a as [|c a IH]; intros s H.
  - by exists "", s.
  - rewrite append_String in H.
    destruct s as [|d s]; simpl in H; [discriminate|].
    injection H as Hc Hs. destruct (IH s Hs) as (a' & b' & -> & Ha & Hb).
    exists (String d a'), b'. simpl. by rewrite Hc, Ha.
Qed.

(** The test of the Requirements Checker is case-insensitive containment,
    for a name that is already in lower case. *)
Lemma package_specified_spec requirements package :
  lower package = package →
  package_specified requirements package = true ↔ ci_occurs package requirements.
Proof.
  intros Hlow. unfold package_specified, ci_occurs. rewrite contains_spec.
  unfold occurs. split.
  - intros (pre & post & H).
    apply lower_app_inv in H as (pre' & rest & -> & _ & H).
    apply lower_app_inv in H as (mid & post' & -> & Hmid & _).
    exists pre', mid, post'. by rewrite Hlow.
  - intros (pre & mid & post & -> & Hmid).
    exists (lower pre), (lower post). rewrite !lower_app. congruence.
Qed.

Lemma essential_packages_lower :
  Forall (λ package, lower package = package) essential_packages.
Proof. repeat constructor. Qed.

(** * The properties of the specification *)

(** ** Orchestrator *)

(** C1: the exit status is 0 if and only if all five checkers return true
    on the filesystem, and 1 otherwise; the Pipeline Layout Checker returns
    true on every filesystem and the Ignore-Pattern Checker returns true
    whenever [.gitignore] is readable, so the status is 0 exactly when the
    Structure, Notebook and Requirements checkers return true and
    [.gitignore] is readable. *)
Theorem exit_status_gated_by_checkers
    (json_loads : string → exn + json) (files : gmap string node) :
  let status := (script json_loads files).1 in
  length (checks json_loads) = 5 ∧
  (status = Exit 0 ↔
     Forall (λ check, returns check files true) (checks json_loads)) ∧
  (status = Exit 1 ↔
     Exists (λ check, returns check files false) (checks json_loads)) ∧
  returns validate_data_pipeline files true ∧
  (readable files ".gitignore" → returns validate_gitignore files true) ∧
  (status = Exit 0 ↔
     returns validate_project_structure files true ∧
     returns (validate_notebooks json_loads) files true ∧
     returns validate_requirements files true ∧
     readable files ".gitignore").
Proof.
  intros status. subst status. rewrite script_run. cbn [fst].
  unfold checks. rewrite !Forall_cons, Forall_nil, !Exists_cons, Exists_nil.
  rewrite !returns_structure, !returns_notebooks, !returns_pipeline,
    !returns_requirements, !returns_gitignore.
  unfold all_ok.
  assert (Hgit : gitignore_ok files = true ↔ readable files ".gitignore").
  { unfold gitignore_ok, readable.
    destruct (read_text files ".gitignore") as [e|text]; split;
      try done; eauto. by intros [text H]. }
  rewrite <- Hgit.
  destruct (structure_ok files), (notebooks_ok json_loads files),
    (requirements_ok files), (gitignore_ok files); cbn;
    repeat split; try done; try tauto; try (intros; congruence); intuition congruence.
Qed.

(** ** Structure Checker *)

(** C2: the Structure Checker returns true if and only if each of the 6
    required directories is a directory and each of the 7 required files is
    a regular file; with any single required item removed it returns false;
    directories are checked before files, and the checker returns false at
    the first missing directory or the first missing file, printing nothing
    after the line that reports it. *)
Theorem structure_checker_spec (files : gmap string node) (out : list line) :
  let r := validate_project_structure (World files out) in
  length required_dirs = 6 ∧ length required_files = 7 ∧
  (r.1 = inr true ∨ r.1 = inr false) ∧
  (r.1 = inr true ↔
     Forall (λ dir_path, files !! dir_path = Some Directory) required_dirs ∧
     Forall (λ file_path, ∃ content, files !! file_path = Some (RegularFile content))
       required_files) ∧
  (∀ item, item ∈ required_dirs ++ required_files →
     returns validate_project_structure (delete item files) false) ∧
  (∀ pre dir_path post,
     required_dirs = pre ++ dir_path :: post →
     Forall (λ d, isdir files d = true) pre →
     isdir files dir_path = false →
     r = (inr false,
          World files (out ++ StructureHeader :: map DirOk pre ++ [DirMissing dir_path]))) ∧
  (∀ pre file_path post,
     required_files = pre ++ file_path :: post →
     Forall (λ d, isdir files d = true) required_dirs →
     Forall (λ f, isfile files f = true) pre →
     isfile files file_path = false →
     r = (inr false,
          World files (out ++ StructureHeader :: map DirOk required_dirs ++
                       map FileOk pre ++ [FileMissing file_path]))).
Proof.
  intros r. subst r. rewrite validate_project_structure_run. cbn [fst].
  split; [done|]. split; [done|]. split.
  { destruct (structure_ok files); auto. }
  split.
  { split.
    - intros H. assert (Hok : structure_ok files = true) by congruence.
      clear H. unfold structure_ok in Hok. apply andb_true_iff in Hok as [Hd Hf].
      apply forallb_Forall_true in Hd, Hf.
      split; (eapply Forall_impl; [eassumption|]); intros x Hx;
        [by apply isdir_true | by apply isfile_true].
    - intros [Hd Hf]. f_equal. unfold structure_ok. apply andb_true_iff.
      split; apply forallb_Forall_true; (eapply Forall_impl; [eassumption|]);
        intros x Hx; [by apply isdir_true | by apply isfile_true]. }
  split.
  { intros item Hitem. apply returns_structure. symmetry.
    unfold structure_ok. apply andb_false_iff.
    apply elem_of_app in Hitem as [Hdir|Hfile].
    - left. eapply forallb_false_elem; [exact Hdir | apply isdir_delete].
    - right. eapply forallb_false_elem; [exact Hfile | apply isfile_delete]. }
  split.
  - intros pre dir_path post Hsplit Hpre Hmiss.
    apply forallb_Forall_true in Hpre.
    destruct (check_lines_first (isdir files) DirOk DirMissing pre dir_path post
                Hpre Hmiss) as [Hall Hlines].
    unfold structure_ok, structure_lines. rewrite Hsplit, Hall, Hlines.
    cbn [andb]. by rewrite app_nil_r.
  - intros pre file_path post Hsplit Hdirs Hpre Hmiss.
    apply forallb_Forall_true in Hdirs, Hpre.
    destruct (check_lines_first (isfile files) FileOk FileMissing pre file_path post
                Hpre Hmiss) as [Hall Hlines].
    unfold structure_ok, structure_lines.
    rewrite Hdirs, (check_lines_all _ _ _ _ Hdirs), Hsplit, Hall, Hlines.
    done.
Qed.

(** ** Notebook Checker *)

Section NotebookFacts.

Variable json_loads : string → exn + json.

Lemma notebook_outcome_sized files notebook n :
  notebook_outcome json_loads files notebook = inr (Some n) ↔
  has_sized_cells json_loads files notebook n.
Proof.
  unfold notebook_outcome, has_sized_cells.
  destruct (read_text files notebook) as [e|text].
  { split; [done | by intros (? & ? & ? & ? & _)]. }
  destruct (json_loads text) as [e|content] eqn:Hloads.
  { split; [done | intros (? & ? & ? & [= <-] & ? & _); congruence]. }
  split.
  - destruct content as [| | | | s | arr | items]; simpl; try done.
    + by destruct (list_contains _ s).
    + by destruct (existsb _ arr).
    + destruct (dict_get _ items) as [cells|] eqn:Hget; simpl; [|done].
      destruct (py_len cells) as [e|m] eqn:Hlen; [done|].
      intros [= ->]. by exists text, items, cells.
  - intros (text' & items & cells & [= <-] & Hitems & Hget & Hlen).
    assert (content = JObj items) as -> by congruence.
    simpl. rewrite Hget. simpl. by rewrite Hlen.
Qed.

Lemma notebook_passes_sized files notebook :
  notebook_passes json_loads files notebook = true ↔
  ∃ n, has_sized_cells json_loads files notebook n.
Proof.
  unfold notebook_passes. split.
  - destruct (notebook_outcome json_loads files notebook) as [e|[n|]] eqn:H;
      try done.
    intros _. exists n. by apply notebook_outcome_sized.
  - intros [n H%notebook_outcome_sized]. by rewrite H.
Qed.

Lemma notebooks_ok_sized files :
  notebooks_ok json_loads files = true ↔
  Forall (λ notebook, ∃ n, has_sized_cells json_loads files notebook n) notebooks.
Proof.
  unfold notebooks_ok. rewrite forallb_Forall_true.
  apply Forall_iff. intros notebook. apply notebook_passes_sized.
Qed.

(** The run stops at the first notebook that does not pass, and the line
    printed for it is the last one. *)
Lemma notebooks_first_failure files out pre notebook post :
  notebooks = pre ++ notebook :: post →
  Forall (λ x, ∃ n, has_sized_cells json_loads files x n) pre →
  notebook_passes json_loads files notebook = false →
  ∃ lines,
    validate_notebooks json_loads (World files out) =
      (inr false,
       World files (out ++ NotebooksHeader :: lines ++
                    [notebook_line json_loads files notebook])) ∧
    length lines = length pre.
Proof.
  intros Hsplit Hpre Hfail.
  assert (Hpre' : forallb (notebook_passes json_loads files) pre = true).
  { apply forallb_Forall_true. eapply Forall_impl; [exact Hpre|].
    intros x Hx. by apply notebook_passes_sized. }
  destruct (check_lines_first (notebook_passes json_loads files)
              (notebook_line json_loads files) (notebook_line json_loads files)
              pre notebook post Hpre' Hfail) as [Hall Hlines].
  exists (map (notebook_line json_loads files) pre). split.
  - rewrite validate_notebooks_run. unfold notebooks_ok, notebooks_lines.
    by rewrite Hsplit, Hall, Hlines.
  - by rewrite length_map.
Qed.

Lemma notebook_unusable_fails files notebook :
  unusable json_loads files notebook →
  notebook_passes json_loads files notebook = false.
Proof.
  intros Hbad. destruct (notebook_passes json_loads files notebook) eqn:H; [|done].
  apply notebook_passes_sized in H as (n & text & items & cells & Hr & Hl & Hg & Hn).
  destruct Hbad as [[e He] | [(t & e & Ht & He) | (t & c & Ht & Hc & Hnot)]].
  - congruence.
  - congruence.
  - exfalso. apply Hnot. exists items, cells, n. repeat split; congruence.
Qed.

End NotebookFacts.

(** C3 (as stated): four notebooks holding the object [{"cells": 5}] all
    read and parse as JSON with a ["cells"] key, and the checker returns
    false for them: the length of a number cannot be taken. *)
Lemma notebook_checker_rejects_numeric_cells :
  ¬ notebook_checker_as_specified PyJson.loads
      (project (dq "{'cells': 5}") requirements_text gitignore_text).
Proof.
  unfold notebook_checker_as_specified. intros [_ H].
  assert (Hcells : Forall
            (parses_with_cells_key PyJson.loads
               (project (dq "{'cells': 5}") requirements_text gitignore_text))
            notebooks).
  { repeat constructor;
      (eexists _, _; split; [vm_compute; reflexivity|];
       split; [vm_compute; reflexivity|]; vm_compute; eauto). }
  specialize (H Hcells). vm_compute in H. discriminate.
Qed.

(** C3 (amended): the Notebook Checker returns true if and only if each of
    the four notebooks can be read and parses as a JSON object whose
    ["cells"] entry has a length (a list, an object or a string).  If any
    notebook is not valid JSON the checker returns false, and when that
    notebook is the first to fail, the last line printed is its
    invalid-JSON report with the decoder's error; likewise an object
    without a ["cells"] key makes the checker return false with the
    missing-key report.  When the checker returns true, every notebook is
    reported with the length of its ["cells"], which is 0 for the empty
    list. *)
Theorem notebook_checker_spec
    (json_loads : string → exn + json) (files : gmap string node) (out : list line) :
  let r := validate_notebooks json_loads (World files out) in
  let cells_key := codepoints "cells" in
  length notebooks = 4 ∧
  (r.1 = inr true ∨ r.1 = inr false) ∧
  (r.1 = inr true ↔
     Forall (λ notebook, ∃ n, has_sized_cells json_loads files notebook n) notebooks) ∧
  (∀ notebook text msg,
     notebook ∈ notebooks →
     read_text files notebook = inr text →
     json_loads text = inl (JSONDecodeError msg) →
     r.1 = inr false) ∧
  (∀ pre notebook post text msg,
     notebooks = pre ++ notebook :: post →
     Forall (λ x, ∃ n, has_sized_cells json_loads files x n) pre →
     read_text files notebook = inr text →
     json_loads text = inl (JSONDecodeError msg) →
     ∃ lines,
       stdout r.2 = out ++ NotebooksHeader :: lines ++
                    [NotebookInvalidJSON notebook (JSONDecodeError msg)] ∧
       length lines = length pre) ∧
  (∀ notebook text items,
     notebook ∈ notebooks →
     read_text files notebook = inr text →
     json_loads text = inr (JObj items) →
     dict_get cells_key items = None →
     r.1 = inr false) ∧
  (∀ pre notebook post text items,
     notebooks = pre ++ notebook :: post →
     Forall (λ x, ∃ n, has_sized_cells json_loads files x n) pre →
     read_text files notebook = inr text →
     json_loads text = inr (JObj items) →
     dict_get cells_key items = None →
     ∃ lines,
       stdout r.2 = out ++ NotebooksHeader :: lines ++ [NotebookNoCells notebook] ∧
       length lines = length pre) ∧
  (∀ notebook n,
     notebook ∈ notebooks →
     r.1 = inr true →
     has_sized_cells json_loads files notebook n →
     NotebookValid notebook n ∈ stdout r.2) ∧
  (∀ notebook text items,
     notebook ∈ notebooks →
     r.1 = inr true →
     read_text files notebook = inr text →
     json_loads text = inr (JObj items) →
     dict_get cells_key items = Some (JArr []) →
     NotebookValid notebook 0 ∈ stdout r.2).
Proof.
  intros r cells_key.
  assert (Hvalid : ∀ notebook n,
            notebook ∈ notebooks → r.1 = inr true →
            has_sized_cells json_loads files notebook n →
            NotebookValid notebook n ∈ stdout r.2).
  { subst r. rewrite validate_notebooks_run. cbn [fst snd stdout].
    intros notebook n Hin Hok Hsized.
    assert (Hall : notebooks_ok json_loads files = true) by congruence.
    unfold notebooks_lines. unfold notebooks_ok in Hall.
    rewrite (check_lines_all _ _ _ _ Hall).
    apply elem_of_app. right. apply elem_of_cons. right.
    apply notebook_outcome_sized in Hsized.
    replace (NotebookValid notebook n) with (notebook_line json_loads files notebook)
      by (unfold notebook_line; by rewrite Hsized).
    apply list_elem_of_In, in_map, list_elem_of_In, Hin. }
  assert (Hfalse : ∀ notebook,
            notebook ∈ notebooks →
            notebook_passes json_loads files notebook = false →
            r.1 = inr false).
  { subst r. rewrite validate_notebooks_run. cbn [fst].
    intros notebook Hin Hfail. f_equal. unfold notebooks_ok.
    eapply forallb_false_elem; eauto. }
  assert (Hjson : ∀ notebook text msg,
            read_text files notebook = inr text →
            json_loads text = inl (JSONDecodeError msg) →
            notebook_outcome json_loads files notebook = inl (JSONDecodeError msg)).
  { intros notebook text msg Hr Hl. unfold notebook_outcome. by rewrite Hr, Hl. }
  assert (Hkey : ∀ notebook text items,
            read_text files notebook = inr text →
            json_loads text = inr (JObj items) →
            dict_get cells_key items = None →
            notebook_outcome json_loads files notebook = inr None).
  { intros notebook text items Hr Hl Hg. unfold notebook_outcome.
    rewrite Hr, Hl. simpl. fold cells_key. by rewrite Hg. }
  split; [done|]. split.
  { subst r. rewrite validate_notebooks_run. cbn [fst].
    destruct (notebooks_ok json_loads files); auto. }
  split.
  { subst r. rewrite validate_notebooks_run. cbn [fst].
    rewrite <- notebooks_ok_sized. split; congruence. }
  split.
  { intros notebook text msg Hin Hr Hl. apply (Hfalse notebook Hin).
    unfold notebook_passes. by rewrite (Hjson _ _ _ Hr Hl). }
  split.
  { intros pre notebook post text msg Hsplit Hpre Hr Hl.
    destruct (notebooks_first_failure json_loads files out pre notebook post
                Hsplit Hpre) as (lines & Hrun & Hlen).
    { unfold notebook_passes. by rewrite (Hjson _ _ _ Hr Hl). }
    exists lines. subst r. rewrite Hrun. cbn [snd stdout].
    unfold notebook_line. by rewrite (Hjson _ _ _ Hr Hl). }
  split.
  { intros notebook text items Hin Hr Hl Hg. apply (Hfalse notebook Hin).
    unfold notebook_passes. by rewrite (Hkey _ _ _ Hr Hl Hg). }
  split.
  { intros pre notebook post text items Hsplit Hpre Hr Hl Hg.
    destruct (notebooks_first_failure json_loads files out pre notebook post
                Hsplit Hpre) as (lines & Hrun & Hlen).
    { unfold notebook_passes. by rewrite (Hkey _ _ _ Hr Hl Hg). }
    exists lines. subst r. rewrite Hrun. cbn [snd stdout].
    unfold notebook_line. by rewrite (Hkey _ _ _ Hr Hl Hg). }
  split; [exact Hvalid|].
  intros notebook text items Hin Hok Hr Hl Hg.
  apply Hvalid; [done..|]. by exists text, items, (JArr []).
Qed.

(** C10 (as stated): four notebooks holding the object [{"cells": "abc"}]
    have no list-valued ["cells"], and the checker returns true for them:
    the length of the string is taken and reported as 3 cells. *)
Lemma notebook_checker_accepts_string_cells :
  ¬ catch_all_as_specified PyJson.loads
      (project (dq "{'cells': 'abc'}") requirements_text gitignore_text).
Proof.
  unfold catch_all_as_specified. intros H.
  assert (Hbad : ∃ notebook, notebook ∈ notebooks ∧
            lacks_cell_list PyJson.loads
              (project (dq "{'cells': 'abc'}") requirements_text gitignore_text)
              notebook).
  { exists "notebooks/01_data_ingestion.ipynb". split.
    - apply elem_of_cons. by left.
    - right. eexists _, _. split; [vm_compute; reflexivity|].
      split; [vm_compute; reflexivity|].
      intros (items & cells & [= <-] & Hget). vm_compute in Hget. discriminate. }
  specialize (H Hbad). vm_compute in H. discriminate.
Qed.

Lemma forallb_false_exists {A} (test : A → bool) xs :
  forallb test xs = false → ∃ x, x ∈ xs ∧ test x = false.
Proof.
  induction xs as [|x xs IH]; simpl; [done|].
  destruct (test x) eqn:Hx; simpl.
  - intros (y & Hy & Hty)%IH. exists y. split; [|done]. apply elem_of_cons. by right.
  - intros _. exists x. split; [|done]. apply elem_of_cons. by left.
Qed.

Lemma has_length_py_len v : has_length v = true ↔ ∃ n, py_len v = inr n.
Proof.
  destruct v; simpl; split; try done; eauto; by intros [? ?].
Qed.

Lemma notebook_fails_unusable json_loads files notebook :
  notebook_passes json_loads files notebook = false →
  unusable json_loads files notebook.
Proof.
  intros Hfail. unfold unusable.
  destruct (read_text files notebook) as [e|text] eqn:Hread; [left; eauto|].
  destruct (json_loads text) as [e|content] eqn:Hloads; [right; left; eauto|].
  right. right. exists text, content. repeat split; try done.
  intros (items & cells & n & -> & Hget & Hlen).
  assert (Hpass : notebook_passes json_loads files notebook = true).
  { apply notebook_passes_sized. exists n, text, items, cells. done. }
  congruence.
Qed.

Lemma notebook_valid_reported json_loads files notebook n :
  notebooks_ok json_loads files = true →
  notebook ∈ notebooks →
  has_sized_cells json_loads files notebook n →
  NotebookValid notebook n ∈ notebooks_lines json_loads files.
Proof.
  intros Hall Hin Hsized. unfold notebooks_lines. unfold notebooks_ok in Hall.
  rewrite (check_lines_all _ _ _ _ Hall). apply elem_of_cons. right.
  apply notebook_outcome_sized in Hsized.
  replace (NotebookValid notebook n) with (notebook_line json_loads files notebook)
    by (unfold notebook_line; by rewrite Hsized).
  apply list_elem_of_In, in_map, list_elem_of_In, Hin.
Qed.

(** C10 (amended): the Notebook Checker never raises.  It returns false
    exactly when some notebook is unusable: missing or unreadable, or
    making the decoder raise, or decoding to a value that is not an object
    whose ["cells"] entry has a length (a top-level array, string, number,
    boolean or null, an object without ["cells"], or an object whose
    ["cells"] is a number, a boolean or null).  An object whose ["cells"]
    entry is a string, an object or a list has a length and is not
    unusable: when every notebook is such an object the checker returns
    true, and it reports for each the length of its ["cells"], the number
    of characters of a string and the number of keys of an object. *)
Theorem notebook_checker_catch_all
    (json_loads : string → exn + json) (files : gmap string node) :
  let cells_key := codepoints "cells" in
  let check := validate_notebooks json_loads in
  (∀ out, ∃ (b : bool) lines,
     check (World files out) = (inr b, World files (out ++ lines))) ∧
  (returns check files false ↔
     ∃ notebook, notebook ∈ notebooks ∧ unusable json_loads files notebook) ∧
  (∀ notebook text content,
     read_text files notebook = inr text →
     json_loads text = inr content →
     (unusable json_loads files notebook ↔
      ¬ ∃ items cells,
          content = JObj items ∧
          dict_get cells_key items = Some cells ∧
          has_length cells = true)) ∧
  (∀ notebook e, read_text files notebook = inl e → unusable json_loads files notebook) ∧
  (∀ notebook text e,
     read_text files notebook = inr text →
     json_loads text = inl e →
     unusable json_loads files notebook) ∧
  ((∀ notebook, notebook ∈ notebooks →
      ∃ text items cells,
        read_text files notebook = inr text ∧
        json_loads text = inr (JObj items) ∧
        dict_get cells_key items = Some cells ∧
        has_length cells = true) →
   returns check files true) ∧
  (∀ notebook text items cells,
     notebook ∈ notebooks →
     returns check files true →
     read_text files notebook = inr text →
     json_loads text = inr (JObj items) →
     dict_get cells_key items = Some cells →
     match cells with
     | JStr s => NotebookValid notebook (length s) ∈ printed check files
     | JObj entries => NotebookValid notebook (length entries) ∈ printed check files
     | JArr elements => NotebookValid notebook (length elements) ∈ printed check files
     | _ => False
     end).
Proof.
  intros cells_key check. subst check.
  split; [|split; [|split; [|split; [|split; [|split]]]]].
  - intros out. rewrite validate_notebooks_run. eauto.
  - rewrite returns_notebooks. split.
    + intros Hfalse. symmetry in Hfalse. unfold notebooks_ok in Hfalse.
      apply forallb_false_exists in Hfalse as (notebook & Hin & Hfail).
      exists notebook. split; [done|]. by apply notebook_fails_unusable.
    + intros (notebook & Hin & Hbad). symmetry. unfold notebooks_ok.
      eapply forallb_false_elem; [exact Hin|]. by apply notebook_unusable_fails.
  - intros notebook text content Hread Hloads. split.
    + intros [[e He] | [(t & e & Ht & He) | (t & c & Ht & Hc & Hnot)]];
        [congruence | congruence |].
      intros (items & cells & -> & Hget & Hlen).
      apply has_length_py_len in Hlen as [n Hn].
      apply Hnot. exists items, cells, n.
      assert (t = text) as -> by congruence.
      repeat split; [congruence | done | done].
    + intros Hnot. right. right. exists text, content. repeat split; try done.
      intros (items & cells & n & -> & Hget & Hlen). apply Hnot.
      exists items, cells. repeat split; [done|].
      apply has_length_py_len. eauto.
  - intros notebook e Hread. left. eauto.
  - intros notebook text e Hread Hloads. right. left. eauto.
  - intros Hall. apply returns_notebooks. symmetry. apply notebooks_ok_sized.
    apply Forall_forall. intros notebook Hin.
    destruct (Hall notebook Hin) as (text & items & cells & Hr & Hl & Hg & Hlen).
    apply has_length_py_len in Hlen as [n Hn].
    exists n, text, items, cells. done.
  - intros notebook text items cells Hin Hok Hread Hloads Hget.
    apply returns_notebooks in Hok. symmetry in Hok.
    unfold printed. rewrite validate_notebooks_run. cbn [snd stdout app].
    assert (Hrep : ∀ n, py_len cells = inr n →
              NotebookValid notebook n ∈ notebooks_lines json_loads files).
    { intros n Hn. apply notebook_valid_reported; [done..|].
      by exists text, items, cells. }
    destruct cells as [| | | | s | elements | entries]; try (by apply Hrep).
    all: apply notebooks_ok_sized in Hok; rewrite Forall_forall in Hok;
      destruct (Hok notebook Hin) as (n & t & i & c & Hr & Hl & Hg & Hn);
      subst cells_key; rewrite Hread in Hr; injection Hr as <-;
      rewrite Hloads in Hl; injection Hl as <-;
      rewrite Hget in Hg; injection Hg as <-; discriminate Hn.
Qed.

Lemma notebook_checker_catch_all_witness :
  let quoted := project (dq "'cells'") requirements_text gitignore_text in
  let texts := project (dq "{'cells': 'abc'}") requirements_text gitignore_text in
  returns (validate_notebooks PyJson.loads) quoted false ∧
  returns (validate_notebooks PyJson.loads) texts true ∧
  NotebookValid "notebooks/01_data_ingestion.ipynb" 3 ∈
    printed (validate_notebooks PyJson.loads) texts.
Proof.
  intros quoted texts.
  destruct (notebook_checker_catch_all PyJson.loads quoted)
    as (_ & Hfalse & Hshape & _).
  destruct (notebook_checker_catch_all PyJson.loads texts)
    as (_ & _ & _ & _ & _ & Htrue & Hreport).
  assert (H1 : returns (validate_notebooks PyJson.loads) quoted false).
  { apply Hfalse. exists "notebooks/01_data_ingestion.ipynb". split.
    - apply elem_of_cons. by left.
    - eapply Hshape; [vm_compute; reflexivity | vm_compute; reflexivity |].
      intros (items & cells & Heq & _). discriminate. }
  assert (H2 : returns (validate_notebooks PyJson.loads) texts true).
  { apply Htrue. intros notebook Hin. unfold notebooks in Hin.
    repeat (apply elem_of_cons in Hin as [->|Hin]); [..|by apply elem_of_nil in Hin];
      (eexists _, _, _; split; [vm_compute; reflexivity|];
       split; [vm_compute; reflexivity|]; split; vm_compute; reflexivity). }
  split; [exact H1|]. split; [exact H2|].
  refine (Hreport "notebooks/01_data_ingestion.ipynb" _ _
            (JStr (codepoints "abc")) _ H2 _ _ _).
  - apply elem_of_cons. by left.
  - vm_compute. reflexivity.
  - vm_compute. reflexivity.
  - vm_compute. reflexivity.
Defined.

(** ** Pipeline Layout Checker *)

Lemma forallb_ext_elem {A} (f g : A → bool) xs :
  (∀ x, x ∈ xs → f x = g x) → forallb f xs = forallb g xs.
Proof.
  induction xs as [|x xs IH]; intros H; simpl; [done|].
  rewrite (H x) by (apply elem_of_cons; by left).
  rewrite IH; [done|]. intros y Hy. apply H, elem_of_cons. by right.
Qed.

Section Dependencies.

Variable json_loads : string → exn + json.
Variables files files' : gmap string node.
Hypothesis agree : ∀ path, path ∈ gating_paths → files' !! path = files !! path.

Lemma gating_dir path : path ∈ required_dirs → path ∈ gating_paths.
Proof. intros H. unfold gating_paths. apply elem_of_app. by left. Qed.

Lemma gating_file path : path ∈ required_files → path ∈ gating_paths.
Proof.
  intros H. unfold gating_paths. apply elem_of_app. right.
  apply elem_of_app. by left.
Qed.

Lemma gating_notebook path : path ∈ notebooks → path ∈ gating_paths.
Proof.
  intros H. unfold gating_paths. apply elem_of_app. right.
  apply elem_of_app. right. apply elem_of_app. by left.
Qed.

Lemma gating_read path :
  path ∈ gating_paths → read_text files' path = read_text files path.
Proof. intros H. unfold read_text. by rewrite (agree path H). Qed.

Lemma all_ok_agree : all_ok json_loads files' = all_ok json_loads files.
Proof.
  unfold all_ok. f_equal; [f_equal; [f_equal|]|].
  - unfold structure_ok. f_equal; apply forallb_ext_elem; intros x Hx.
    + unfold isdir. by rewrite (agree x (gating_dir x Hx)).
    + unfold isfile. by rewrite (agree x (gating_file x Hx)).
  - unfold notebooks_ok. apply forallb_ext_elem. intros x Hx.
    unfold notebook_passes, notebook_outcome.
    by rewrite (gating_read x (gating_notebook x Hx)).
  - unfold requirements_ok. rewrite gating_read; [done|].
    unfold gating_paths. rewrite !elem_of_app, !elem_of_cons. tauto.
  - unfold gitignore_ok. rewrite gating_read; [done|].
    unfold gating_paths. rewrite !elem_of_app, !elem_of_cons. tauto.
Qed.

End Dependencies.

Lemma gating_paths_not_readmes :
  Forall (λ path, path ∉ pipeline_readmes) gating_paths.
Proof. apply (bool_decide_unpack _). vm_compute. exact I. Qed.

(** C4: the Pipeline Layout Checker returns true on every filesystem,
    whether or not any of the three layer READMEs or the models README
    exists; a missing README is reported on its line and changes neither
    the checker's result nor, however the four README paths are altered,
    the exit status of the run. *)
Theorem pipeline_checker_always_true
    (json_loads : string → exn + json) (files : gmap string node) :
  pipeline_readmes =
    ["data/raw/README.md"; "data/stage/README.md"; "data/processed/README.md";
     "models/README.md"] ∧
  returns validate_data_pipeline files true ∧
  (∀ item, item ∈ expected_data_flow →
     isfile files (readme_file item.1) = false →
     LayerDocMissing item.1 ∈ printed validate_data_pipeline files) ∧
  (isfile files models_readme = false →
     ModelsDocMissing ∈ printed validate_data_pipeline files) ∧
  (∀ files' : gmap string node,
     (∀ path, path ∉ pipeline_readmes → files' !! path = files !! path) →
     returns validate_data_pipeline files' true ∧
     (script json_loads files').1 = (script json_loads files).1).
Proof.
  split; [reflexivity|]. split; [by apply returns_pipeline|].
  unfold printed. rewrite validate_data_pipeline_run. cbn [snd stdout app].
  unfold pipeline_lines. split; [|split].
  - intros item Hin Hmiss. apply elem_of_cons. right. apply elem_of_app. left.
    replace (LayerDocMissing item.1) with
      (report_line (layer_documented files) (λ item, LayerDocOk item.1)
         (λ item, LayerDocMissing item.1) item)
      by (unfold report_line, layer_documented; by rewrite Hmiss).
    apply list_elem_of_In, in_map, list_elem_of_In, Hin.
  - intros ->. apply elem_of_cons. right. apply elem_of_app. right.
    apply elem_of_cons. by left.
  - intros files' Hagree. split; [by apply returns_pipeline|].
    rewrite !script_run. cbn [fst]. f_equal.
    rewrite (all_ok_agree json_loads files files'); [done|].
    intros path Hpath. apply Hagree.
    pose proof gating_paths_not_readmes as H. rewrite Forall_forall in H.
    by apply H.
Qed.

(** ** Requirements Checker *)

Lemma essential_packages_specified requirements xs :
  Forall (λ package, lower package = package) xs →
  Forall (λ package, ci_occurs package requirements) xs ↔
  forallb (package_specified requirements) xs = true.
Proof.
  intros Hlow. rewrite forallb_Forall_true. split; intros H.
  - induction H as [|x xs Hx Hxs IH]; constructor.
    + apply package_specified_spec; [by inversion Hlow | done].
    + apply IH. by inversion Hlow.
  - induction H as [|x xs Hx Hxs IH]; constructor.
    + apply package_specified_spec in Hx; [done | by inversion Hlow].
    + apply IH. by inversion Hlow.
Qed.

(** C5: when [requirements.txt] reads as a text, the Requirements Checker
    returns true if and only if each of the eight package names occurs in
    it as a case-insensitive substring; at the first name, in the fixed
    order, that does not occur, it returns false at once: the names before
    it are reported as specified, the name itself as missing, and nothing
    is printed for the names after it. *)
Theorem requirements_checker_spec
    (files : gmap string node) (out : list line) (requirements : string) :
  read_text files "requirements.txt" = inr requirements →
  let r := validate_requirements (World files out) in
  essential_packages =
    ["pandas"; "numpy"; "tensorflow"; "scikit-learn";
     "matplotlib"; "seaborn"; "faker"; "jupyter"] ∧
  (r.1 = inr true ∨ r.1 = inr false) ∧
  (r.1 = inr true ↔
     Forall (λ package, ci_occurs package requirements) essential_packages) ∧
  (∀ pre package post,
     essential_packages = pre ++ package :: post →
     Forall (λ earlier, ci_occurs earlier requirements) pre →
     ¬ ci_occurs package requirements →
     r = (inr false,
          World files (out ++ RequirementsHeader :: map PackageOk pre ++
                       [PackageMissing package]))).
Proof.
  intros Hread r. subst r. rewrite validate_requirements_run.
  unfold requirements_ok, requirements_lines. rewrite Hread. cbn [fst].
  split; [reflexivity|]. split.
  { destruct (forallb _ _); auto. }
  split.
  { rewrite (essential_packages_specified _ _ essential_packages_lower).
    split; congruence. }
  intros pre package post Hsplit Hpre Hmiss.
  pose proof essential_packages_lower as Hlow. rewrite Hsplit in Hlow.
  apply Forall_app in Hlow as [Hlow_pre Hlow_rest].
  apply (essential_packages_specified _ _ Hlow_pre) in Hpre.
  assert (Hfalse : package_specified requirements package = false).
  { destruct (package_specified requirements package) eqn:H; [|done].
    apply package_specified_spec in H; [done | by inversion Hlow_rest]. }
  destruct (check_lines_first (package_specified requirements) PackageOk
              PackageMissing pre package post Hpre Hfalse) as [Hall Hlines].
  by rewrite Hsplit, Hall, Hlines.
Qed.

Lemma requirements_checker_spec_witness :
  let files := project notebook_text "Pandas NUMPY" gitignore_text in
  read_text files "requirements.txt" = inr "Pandas NUMPY" ∧
  let r := validate_requirements (World files []) in
  essential_packages =
    ["pandas"; "numpy"; "tensorflow"; "scikit-learn";
     "matplotlib"; "seaborn"; "faker"; "jupyter"] ∧
  (r.1 = inr true ∨ r.1 = inr false) ∧
  (r.1 = inr true ↔
     Forall (λ package, ci_occurs package "Pandas NUMPY") essential_packages) ∧
  (∀ pre package post,
     essential_packages = pre ++ package :: post →
     Forall (λ earlier, ci_occurs earlier "Pandas NUMPY") pre →
     ¬ ci_occurs package "Pandas NUMPY" →
     r = (inr false,
          World files ([] ++ RequirementsHeader :: map PackageOk pre ++
                       [PackageMissing package]))).
Proof.
  intros files. split; [vm_compute; reflexivity|].
  apply (requirements_checker_spec files [] "Pandas NUMPY").
  vm_compute. reflexivity.
Defined.

(** C9: the test for a package is plain containment in the lower-cased
    text, so a name that occurs only inside a longer token, or only in a
    comment, satisfies it: whatever surrounds an essential package name in
    [requirements.txt], the test for that package is true, and the package
    is reported as specified whenever the names before it are found too.
    In particular [numpydoc] satisfies the test for numpy and a comment
    naming tensorflow satisfies the test for tensorflow: a manifest with
    only these mentions of the two passes the whole checker. *)
Theorem requirements_substring_match
    (files : gmap string node) (package before after : string) :
  package ∈ essential_packages →
  read_text files "requirements.txt" = inr (before +:+ package +:+ after) →
  contains package (lower (before +:+ package +:+ after)) = true ∧
  (∀ pre post,
     essential_packages = pre ++ package :: post →
     Forall (λ earlier, ci_occurs earlier (before +:+ package +:+ after)) pre →
     PackageOk package ∈ printed validate_requirements files) ∧
  contains "numpy" (lower "numpydoc") = true ∧
  contains "tensorflow" (lower "# tensorflow") = true ∧
  validate_requirements
    (World (project notebook_text requirements_with_numpydoc gitignore_text) []) =
    (inr true,
     World (project notebook_text requirements_with_numpydoc gitignore_text)
       (RequirementsHeader :: map PackageOk essential_packages)).
Proof.
  intros Hin Hread.
  assert (Hlow : lower package = package).
  { pose proof essential_packages_lower as H. rewrite Forall_forall in H. eauto. }
  assert (Hspec : package_specified (before +:+ package +:+ after) package = true).
  { apply package_specified_spec; [done|].
    exists before, package, after. done. }
  split; [exact Hspec|]. split.
  { intros pre post Hsplit Hpre.
    unfold printed. rewrite validate_requirements_run. cbn [snd stdout app].
    unfold requirements_lines. rewrite Hread, Hsplit.
    pose proof essential_packages_lower as Hlows. rewrite Hsplit in Hlows.
    apply Forall_app in Hlows as [Hlow_pre _].
    apply (essential_packages_specified _ _ Hlow_pre) in Hpre.
    rewrite (check_lines_app _ _ _ _ _ Hpre). cbn [check_lines]. rewrite Hspec.
    apply elem_of_cons. right. apply elem_of_app. right.
    apply elem_of_cons. by left. }
  split; [reflexivity|]. split; [reflexivity|].
  vm_compute. reflexivity.
Qed.

Lemma requirements_substring_match_witness :
  let files := project notebook_text requirements_with_numpydoc gitignore_text in
  let before := "pandas
" in
  let after := "doc
# tensorflow is installed separately
scikit-learn
matplotlib
seaborn
faker
jupyter
" in
  "numpy" ∈ essential_packages ∧
  read_text files "requirements.txt" = inr (before +:+ "numpy" +:+ after) ∧
  contains "numpy" (lower (before +:+ "numpy" +:+ after)) = true ∧
  (∀ pre post,
     essential_packages = pre ++ "numpy" :: post →
     Forall (λ earlier, ci_occurs earlier (before +:+ "numpy" +:+ after)) pre →
     PackageOk "numpy" ∈ printed validate_requirements files).
Proof.
  intros files before after.
  assert (Hin : "numpy" ∈ essential_packages).
  { apply elem_of_cons. right. apply elem_of_cons. by left. }
  assert (Hread : read_text files "requirements.txt" = inr (before +:+ "numpy" +:+ after)).
  { vm_compute. reflexivity. }
  split; [exact Hin|]. split; [exact Hread|].
  destruct (requirements_substring_match files "numpy" before after Hin Hread)
    as (H1 & H2 & _).
  split; [exact H1 | exact H2].
Defined.

(** ** Ignore-Pattern Checker *)

Lemma report_ok_elem {A} (test : A → bool) (ok bad : A → line) xs x :
  (∀ y z, ok y ≠ bad z) → (∀ y z, ok y = ok z → y = z) →
  ok x ∈ map (report_line test ok bad) xs ↔ x ∈ xs ∧ test x = true.
Proof.
  intros Hdiff Hinj. induction xs as [|y xs IH]; simpl.
  - split; [by intros H%elem_of_nil | by intros [H%elem_of_nil _]].
  - rewrite !elem_of_cons, IH. unfold report_line. split.
    + intros [H | [H1 H2]]; [|by auto].
      destruct (test y) eqn:Hy; [|by apply Hdiff in H].
      apply Hinj in H as ->. auto.
    + intros [[-> | H] Ht]; [|by auto]. left. by rewrite Ht.
Qed.

Lemma report_bad_elem {A} (test : A → bool) (ok bad : A → line) xs x :
  (∀ y z, ok y ≠ bad z) → (∀ y z, bad y = bad z → y = z) →
  bad x ∈ map (report_line test ok bad) xs ↔ x ∈ xs ∧ test x = false.
Proof.
  intros Hdiff Hinj. induction xs as [|y xs IH]; simpl.
  - split; [by intros H%elem_of_nil | by intros [H%elem_of_nil _]].
  - rewrite !elem_of_cons, IH. unfold report_line. split.
    + intros [H | [H1 H2]]; [|by auto].
      destruct (test y) eqn:Hy; [by symmetry in H; apply Hdiff in H|].
      apply Hinj in H as ->. auto.
    + intros [[-> | H] Ht]; [|by auto]. left. by rewrite Ht.
Qed.

(** C6 (as stated): the checker tests six fixed patterns, not five. *)
Lemma gitignore_checker_has_six_patterns :
  ¬ gitignore_checker_as_specified 5 complete_project.
Proof. intros [Hcount _]. vm_compute in Hcount. discriminate. Qed.

(** C6 (amended): the Ignore-Pattern Checker has six fixed patterns.  It
    returns true if and only if [.gitignore] can be opened and read, and
    false exactly when reading it fails, in which case it reports the
    error.  When the file is readable it prints one line per pattern, in
    order: an inclusion line when the pattern occurs in the text as an
    exact, case-sensitive substring, and a warning line when it does not;
    the warnings do not change the result. *)
Theorem gitignore_checker_spec (files : gmap string node) :
  gitignore_checker_as_specified 6 files.
Proof.
  split; [reflexivity|]. intros out r. subst r.
  rewrite validate_gitignore_run. cbn [fst snd stdout].
  unfold gitignore_ok, gitignore_lines, readable.
  destruct (read_text files ".gitignore") as [e|gitignore].
  - split; [split; [done | by intros [? ?]]|].
    split; [split; eauto|].
    split; [by intros ? [= ->] | done].
  - split; [split; eauto|].
    split; [split; [done | by intros [? ?]]|].
    split; [done|].
    intros text [= <-]. eexists. split; [reflexivity|].
    split; [reflexivity|].
    intros pattern Hin. split.
    + rewrite report_ok_elem by (intros; congruence).
      rewrite contains_spec. tauto.
    + rewrite report_bad_elem by (intros; congruence).
      rewrite <- contains_spec. destruct (contains pattern gitignore);
        split; try tauto; try (intros [_ ?]; congruence); intros H; by destruct H.
Qed.

(** ** The whole run *)

(** C7: on every filesystem and for every behaviour of the JSON decoder the
    script ends through [sys.exit] with status 0 or 1, never with an
    uncaught exception; each checker, called from any state, returns a
    boolean instead of raising; and the orchestrator runs all five checkers
    to the end: what the script prints is the title, then the output of
    each checker in order, then the closing banner. *)
Theorem script_always_exits
    (json_loads : string → exn + json) (files : gmap string node) :
  (∃ status w,
     script json_loads files = (Exit status, w) ∧ (status = 0 ∨ status = 1)%Z) ∧
  (∀ check, check ∈ checks json_loads →
     ∀ w, ∃ (b : bool) w', check w = (inr b, w')) ∧
  (∀ w, ∃ (status : Z) w', main json_loads w = (inr status, w')) ∧
  stdout (script json_loads files).2 =
    [Title; Rule] ++
    concat (map (λ check, printed check files) (checks json_loads)) ++
    ClosingRule :: banner (exited_zero (script json_loads files).1).
Proof.
  split; [|split; [|split]].
  - rewrite script_run. eexists _, _. split; [reflexivity|].
    destruct (all_ok json_loads files); auto.
  - intros check Hin [files' out]. unfold checks in Hin.
    repeat (apply elem_of_cons in Hin as [->|Hin]).
    + rewrite validate_project_structure_run. eauto.
    + rewrite validate_notebooks_run. eauto.
    + rewrite validate_data_pipeline_run. eauto.
    + rewrite validate_requirements_run. eauto.
    + rewrite validate_gitignore_run. eauto.
    + by apply elem_of_nil in Hin.
  - intros [files' out]. rewrite main_run. eauto.
  - rewrite script_run. cbn [fst snd stdout]. unfold printed, checks. cbn [map concat].
    rewrite validate_project_structure_run, validate_notebooks_run,
      validate_data_pipeline_run, validate_requirements_run,
      validate_gitignore_run.
    cbn [snd stdout]. unfold main_lines, checker_lines.
    rewrite !app_nil_l, app_nil_r, <- !app_assoc.
    destruct (all_ok json_loads files); reflexivity.
Qed.

(** C8: the validator only reads: the script leaves the filesystem as it
    found it, and so does each checker and the orchestrator from any
    state; the only part of the world a run changes is standard output,
    which it extends. *)
Theorem validator_only_reads
    (json_loads : string → exn + json) (files : gmap string node) :
  fs (script json_loads files).2 = files ∧
  (∀ check, check ∈ checks json_loads →
     ∀ w, fs (check w).2 = fs w ∧ ∃ lines, stdout (check w).2 = stdout w ++ lines) ∧
  (∀ w, fs (main json_loads w).2 = fs w ∧
        ∃ lines, stdout (main json_loads w).2 = stdout w ++ lines).
Proof.
  split; [|split].
  - by rewrite script_run.
  - intros check Hin [files' out]. unfold checks in Hin.
    repeat (apply elem_of_cons in Hin as [->|Hin]).
    + rewrite validate_project_structure_run. eauto.
    + rewrite validate_notebooks_run. eauto.
    + rewrite validate_data_pipeline_run. eauto.
    + rewrite validate_requirements_run. eauto.
    + rewrite validate_gitignore_run. eauto.
    + by apply elem_of_nil in Hin.
  - intros [files' out]. rewrite main_run. eauto.
Qed.

(** ** End-to-end scenarios *)

(** The full expected layout, with valid notebooks and complete
    [requirements.txt] and [.gitignore], exits with 0 under the passed
    banner. *)
Example complete_project_passes :
  (script PyJson.loads complete_project).1 = Exit 0 ∧
  ∃ lines,
    stdout (script PyJson.loads complete_project).2 =
      lines ++ [ClosingRule; BannerPassed; BannerStructureOk; BannerReady].
Proof.
  split; [vm_compute; reflexivity|].
  rewrite script_run. cbn [snd stdout]. unfold main_lines.
  replace (all_ok PyJson.loads complete_project) with true
    by (vm_compute; reflexivity).
  exists ([Title; Rule] ++ checker_lines PyJson.loads complete_project).
  by rewrite <- app_assoc.
Qed.

(** With [notebooks/02_data_cleaning.ipynb] missing, the Structure Checker
    fails at that file and the script exits with 1. *)
Example missing_notebook_fails :
  let files := delete "notebooks/02_data_cleaning.ipynb" complete_project in
  (script PyJson.loads files).1 = Exit 1 ∧
  printed validate_project_structure files =
    StructureHeader :: map DirOk required_dirs ++
    [FileOk "README.md"; FileOk "requirements.txt"; FileOk ".gitignore";
     FileOk "notebooks/01_data_ingestion.ipynb";
     FileMissing "notebooks/02_data_cleaning.ipynb"].
Proof. split; vm_compute; reflexivity. Qed.

(** ** The decoder and the catch-all on concrete files *)

Example loads_notebook_text :
  PyJson.loads notebook_text =
    inr (JObj [(codepoints "cells", JArr []);
               (codepoints "metadata", JObj []);
               (codepoints "nbformat", JInt 4);
               (codepoints "nbformat_minor", JInt 5)]).
Proof. vm_compute. reflexivity. Qed.

Example loads_values :
  PyJson.loads (dq " [1, -2.5e3, true, null, NaN, {'a': 1, 'b': [], 'a': 'x'}] ") =
    inr (JArr [JInt 1; JFloat "-2.5e3"; JBool true; JNull; JFloat "nan";
               JObj [(codepoints "a", JStr (codepoints "x"));
                     (codepoints "b", JArr [])]]).
Proof. vm_compute. reflexivity. Qed.

Example loads_escapes :
  PyJson.loads (dq "'\u00e9\n\ud83d\ude00'") = inr (JStr [233; 10; 128512]%N).
Proof. vm_compute. reflexivity. Qed.

Example loads_rejects :
  PyJson.loads "" = inl (JSONDecodeError "Expecting value") ∧
  PyJson.loads "[1,]" = inl (JSONDecodeError "Expecting value") ∧
  PyJson.loads "01" = inl (JSONDecodeError "Extra data") ∧
  PyJson.loads "{'cells': []}" =
    inl (JSONDecodeError "Expecting property name enclosed in double quotes").
Proof. repeat split; vm_compute; reflexivity. Qed.

Example notebook_reports :
  first_report notebook_text =
    inr (true, Some (NotebookValid "notebooks/01_data_ingestion.ipynb" 0)) ∧
  first_report (dq "{'cells': [{}, {}], 'nbformat': 4}") =
    inr (true, Some (NotebookValid "notebooks/01_data_ingestion.ipynb" 2)) ∧
  first_report (dq "{'cells': 'abc'}") =
    inr (true, Some (NotebookValid "notebooks/01_data_ingestion.ipynb" 3)) ∧
  first_report (dq "{'metadata': {}}") =
    inr (false, Some (NotebookNoCells "notebooks/01_data_ingestion.ipynb")) ∧
  first_report (dq "{'cells': [}") =
    inr (false, Some (NotebookInvalidJSON "notebooks/01_data_ingestion.ipynb"
                        (JSONDecodeError "Expecting value"))) ∧
  first_report (dq "['cells']") =
    inr (false, Some (NotebookError "notebooks/01_data_ingestion.ipynb"
                        (TypeError "list indices must be integers or slices, not str"))) ∧
  first_report (dq "'the cells'") =
    inr (false, Some (NotebookError "notebooks/01_data_ingestion.ipynb"
                        (TypeError "string indices must be integers"))) ∧
  first_report (dq "{'cells': null}") =
    inr (false, Some (NotebookError "notebooks/01_data_ingestion.ipynb"
                        (TypeError "object of type 'NoneType' has no len()"))) ∧
  first_report "42" =
    inr (false, Some (NotebookError "notebooks/01_data_ingestion.ipynb"
                        (TypeError "argument of type 'int' is not iterable"))).
Proof. repeat split; vm_compute; reflexivity. Qed.

(** A missing notebook is reported by the catch-all as well. *)
Example missing_notebook_report :
  validate_notebooks PyJson.loads (World (delete "notebooks/01_data_ingestion.ipynb" complete_project) []) =
    (inr false,
     World (delete "notebooks/01_data_ingestion.ipynb" complete_project)
       [NotebooksHeader;
        NotebookError "notebooks/01_data_ingestion.ipynb"
          (FileNotFoundError "notebooks/01_data_ingestion.ipynb")]).
Proof. rewrite validate_notebooks_run. f_equal. Qed.

(** * Further properties of the validator *)

(** ** What the results mean on the filesystem *)

Lemma structure_ok_true files :
  structure_ok files = true ↔
  Forall (λ dir_path, files !! dir_path = Some Directory) required_dirs ∧
  Forall (λ file_path, ∃ content, files !! file_path = Some (RegularFile content))
    required_files.
Proof.
  unfold structure_ok. rewrite andb_true_iff, !forallb_Forall_true.
  split; intros [Hd Hf]; split;
    (eapply Forall_impl; [eassumption|]); intros x Hx;
    first [by apply isdir_true | by apply isfile_true].
Qed.

Lemma requirements_ok_true files :
  requirements_ok files = true ↔
  ∃ requirements,
    read_text files "requirements.txt" = inr requirements ∧
    Forall (λ package, ci_occurs package requirements) essential_packages.
Proof.
  unfold requirements_ok.
  destruct (read_text files "requirements.txt") as [e|requirements].
  - split; [done | by intros (? & ? & _)].
  - rewrite <- (essential_packages_specified _ _ essential_packages_lower).
    split; [eauto | by intros (? & [= <-] & ?)].
Qed.

Lemma gitignore_ok_true files :
  gitignore_ok files = true ↔ readable files ".gitignore".
Proof.
  unfold gitignore_ok, readable.
  destruct (read_text files ".gitignore"); split; eauto; try done.
  by intros [? ?].
Qed.

Lemma all_ok_true json_loads files :
  all_ok json_loads files = true ↔
  structure_ok files = true ∧ notebooks_ok json_loads files = true ∧
  requirements_ok files = true ∧ gitignore_ok files = true.
Proof. unfold all_ok. rewrite !andb_true_iff. tauto. Qed.

Lemma exit_zero_all_ok json_loads files :
  (script json_loads files).1 = Exit 0 ↔ all_ok json_loads files = true.
Proof.
  rewrite script_run. cbn [fst].
  destruct (all_ok json_loads files); split; congruence.
Qed.

Lemma exit_one_not_ok json_loads files :
  (script json_loads files).1 = Exit 1 ↔ all_ok json_loads files = false.
Proof.
  rewrite script_run. cbn [fst].
  destruct (all_ok json_loads files); split; congruence.
Qed.

(** X1: the script exits with 0 exactly on the filesystems where the six
    required directories are directories, the seven required files are
    regular files, every notebook reads and decodes to an object whose
    ["cells"] has a length, [requirements.txt] reads as a text naming the
    eight packages in any case, and [.gitignore] can be read. *)
Theorem exit_zero_characterised
    (json_loads : string → exn + json) (files : gmap string node) :
  (script json_loads files).1 = Exit 0 ↔
    Forall (λ dir_path, files !! dir_path = Some Directory) required_dirs ∧
    Forall (λ file_path, ∃ content, files !! file_path = Some (RegularFile content))
      required_files ∧
    Forall (λ notebook, ∃ n, has_sized_cells json_loads files notebook n) notebooks ∧
    (∃ requirements,
       read_text files "requirements.txt" = inr requirements ∧
       Forall (λ package, ci_occurs package requirements) essential_packages) ∧
    readable files ".gitignore".
Proof.
  rewrite exit_zero_all_ok, all_ok_true, structure_ok_true, notebooks_ok_sized,
    requirements_ok_true, gitignore_ok_true.
  tauto.
Qed.

(** ** What the validator looks at *)

Lemma check_lines_ext {A} (test test' : A → bool) (ok ok' bad bad' : A → line) xs :
  (∀ x, x ∈ xs → test x = test' x ∧ ok x = ok' x ∧ bad x = bad' x) →
  check_lines test ok bad xs = check_lines test' ok' bad' xs.
Proof.
  induction xs as [|x xs IH]; intros H; simpl; [done|].
  destruct (H x) as (-> & -> & ->); [apply elem_of_cons; by left|].
  rewrite IH; [done|]. intros y Hy. apply H, elem_of_cons. by right.
Qed.

Lemma isdir_agree files files' path :
  files' !! path = files !! path → isdir files' path = isdir files path.
Proof. unfold isdir. by intros ->. Qed.

Lemma isfile_agree files files' path :
  files' !! path = files !! path → isfile files' path = isfile files path.
Proof. unfold isfile. by intros ->. Qed.

Lemma read_text_agree files files' path :
  files' !! path = files !! path → read_text files' path = read_text files path.
Proof. unfold read_text. by intros ->. Qed.

Lemma gating_paths_required :
  Forall (λ path, path ∈ required_dirs ++ required_files) gating_paths.
Proof. apply (bool_decide_unpack _). vm_compute. exact I. Qed.

Lemma layer_readme_listed item :
  item ∈ expected_data_flow → readme_file item.1 ∈ pipeline_readmes.
Proof.
  intros Hin. unfold pipeline_readmes. apply elem_of_app. left.
  apply list_elem_of_In.
  apply (in_map (λ item : string * list string, readme_file item.1)).
  by apply list_elem_of_In.
Qed.

Lemma models_readme_listed : models_readme ∈ pipeline_readmes.
Proof.
  unfold pipeline_readmes. apply elem_of_app. right. apply elem_of_cons. by left.
Qed.

Section Footprint.

Variable json_loads : string → exn + json.
Variables files files' : gmap string node.
Hypothesis required : agree_on (required_dirs ++ required_files) files files'.

Lemma agree_gating path : path ∈ gating_paths → files' !! path = files !! path.
Proof.
  intros Hin. apply required.
  pose proof gating_paths_required as H. rewrite Forall_forall in H. by apply H.
Qed.

Lemma structure_lines_agree : structure_lines files' = structure_lines files.
Proof.
  unfold structure_lines. f_equal. f_equal.
  - apply check_lines_ext. intros x Hx. split; [|done].
    apply isdir_agree, required, elem_of_app. by left.
  - rewrite (forallb_ext_elem (isdir files') (isdir files)).
    2:{ intros x Hx. apply isdir_agree, required, elem_of_app. by left. }
    destruct (forallb (isdir files) required_dirs); [|done].
    apply check_lines_ext. intros x Hx. split; [|done].
    apply isfile_agree, required, elem_of_app. by right.
Qed.

Lemma notebook_outcome_agree notebook :
  notebook ∈ notebooks →
  notebook_outcome json_loads files' notebook =
  notebook_outcome json_loads files notebook.
Proof.
  intros Hin. unfold notebook_outcome.
  rewrite (read_text_agree files files'); [done|].
  apply agree_gating. unfold gating_paths.
  rewrite !elem_of_app. auto.
Qed.

Lemma notebooks_lines_agree :
  notebooks_lines json_loads files' = notebooks_lines json_loads files.
Proof.
  unfold notebooks_lines. f_equal. apply check_lines_ext. intros x Hx.
  unfold notebook_passes, notebook_line. by rewrite notebook_outcome_agree.
Qed.

Lemma requirements_lines_agree : requirements_lines files' = requirements_lines files.
Proof.
  unfold requirements_lines. rewrite (read_text_agree files files'); [done|].
  apply agree_gating. unfold gating_paths.
  rewrite !elem_of_app, !elem_of_cons. auto 10.
Qed.

Lemma gitignore_lines_agree : gitignore_lines files' = gitignore_lines files.
Proof.
  unfold gitignore_lines. rewrite (read_text_agree files files'); [done|].
  apply agree_gating. unfold gating_paths.
  rewrite !elem_of_app, !elem_of_cons. auto 10.
Qed.

Lemma pipeline_lines_agree :
  agree_on pipeline_readmes files files' →
  pipeline_lines files' = pipeline_lines files.
Proof.
  intros Hreadmes. unfold pipeline_lines. f_equal. f_equal.
  - apply map_ext_in. intros item Hin%list_elem_of_In.
    unfold report_line, layer_documented.
    by rewrite (isfile_agree files files') by (by apply Hreadmes, layer_readme_listed).
  - by rewrite (isfile_agree files files') by apply Hreadmes, models_readme_listed.
Qed.

End Footprint.

(** X2: the exit status depends on the filesystem only through the
    thirteen required paths (six directories, seven files): two filesystems
    that agree on them exit alike, whatever else they hold.  If they also
    agree on the four README paths of the Pipeline Layout Checker, the two
    runs print the same lines. *)
Theorem exit_status_footprint
    (json_loads : string → exn + json) (files files' : gmap string node) :
  agree_on (required_dirs ++ required_files) files files' →
  length (required_dirs ++ required_files) = 13 ∧
  (script json_loads files').1 = (script json_loads files).1 ∧
  (agree_on pipeline_readmes files files' →
   stdout (script json_loads files').2 = stdout (script json_loads files).2).
Proof.
  intros Hreq. split; [reflexivity|].
  assert (Hok : all_ok json_loads files' = all_ok json_loads files).
  { apply all_ok_agree. intros path Hin. by apply (agree_gating files files' Hreq). }
  rewrite !script_run. cbn [fst snd stdout]. split; [by rewrite Hok|].
  intros Hreadmes. unfold main_lines, checker_lines.
  by rewrite Hok, (structure_lines_agree files files' Hreq),
    (notebooks_lines_agree json_loads files files' Hreq),
    (requirements_lines_agree files files' Hreq),
    (gitignore_lines_agree files files' Hreq),
    (pipeline_lines_agree files files' Hreadmes).
Qed.

Lemma exit_status_footprint_witness :
  let files := complete_project in
  let files' := <["data/raw/customers.csv" := RegularFile (inr "id,name")]> complete_project in
  agree_on (required_dirs ++ required_files) files files' ∧
  (script PyJson.loads files').1 = (script PyJson.loads files).1.
Proof.
  intros files files'.
  assert (H : agree_on (required_dirs ++ required_files) files files').
  { intros path Hin. apply lookup_insert_ne. intros <-. revert Hin.
    apply (bool_decide_unpack _). vm_compute. exact I. }
  split; [exact H|].
  exact (proj1 (proj2 (exit_status_footprint PyJson.loads files files' H))).
Defined.

(** ** Running again *)

(** X3: a second run tells the same story: called again on the world a
    first call left behind, [main] returns the same status and prints the
    same lines once more, and so does each of the five checkers. *)
Theorem rerun_repeats
    (json_loads : string → exn + json) (w : world) :
  (∃ status lines,
     main json_loads w = (inr status, World (fs w) (stdout w ++ lines)) ∧
     main json_loads (main json_loads w).2 =
       (inr status, World (fs w) (stdout w ++ lines ++ lines))) ∧
  (∀ check, check ∈ checks json_loads →
     ∃ (b : bool) lines,
       check w = (inr b, World (fs w) (stdout w ++ lines)) ∧
       check (check w).2 = (inr b, World (fs w) (stdout w ++ lines ++ lines))).
Proof.
  destruct w as [files out]. cbn [fs stdout]. split.
  - eexists _, _. rewrite !main_run. cbn [snd]. rewrite main_run.
    by rewrite <- app_assoc.
  - intros check Hin. unfold checks in Hin.
    repeat (apply elem_of_cons in Hin as [->|Hin]);
      [..|by apply elem_of_nil in Hin]; eexists _, _.
    + rewrite !validate_project_structure_run. cbn [snd].
      rewrite validate_project_structure_run. by rewrite <- app_assoc.
    + rewrite !validate_notebooks_run. cbn [snd].
      rewrite validate_notebooks_run. by rewrite <- app_assoc.
    + rewrite !validate_data_pipeline_run. cbn [snd].
      rewrite validate_data_pipeline_run. by rewrite <- app_assoc.
    + rewrite !validate_requirements_run. cbn [snd].
      rewrite validate_requirements_run. by rewrite <- app_assoc.
    + rewrite !validate_gitignore_run. cbn [snd].
      rewrite validate_gitignore_run. by rewrite <- app_assoc.
Qed.

(** ** Removing a required item *)

Lemma structure_ok_delete files item :
  item ∈ required_dirs ++ required_files →
  structure_ok (delete item files) = false.
Proof.
  intros Hitem. unfold structure_ok. apply andb_false_iff.
  apply elem_of_app in Hitem as [Hdir|Hfile].
  - left. eapply forallb_false_elem; [exact Hdir | apply isdir_delete].
  - right. eapply forallb_false_elem; [exact Hfile | apply isfile_delete].
Qed.

(** X4: with any one of the thirteen required directories and files
    removed, the script exits with 1 on every filesystem and for every
    decoder, and the closing banner is the failure banner. *)
Theorem removing_required_item_fails
    (json_loads : string → exn + json) (files : gmap string node) (item : string) :
  item ∈ required_dirs ++ required_files →
  ∃ lines,
    script json_loads (delete item files) =
      (Exit 1, World (delete item files)
                 (lines ++ [ClosingRule; BannerFailed; BannerFixIssues])).
Proof.
  intros Hitem. rewrite script_run. unfold main_lines, all_ok.
  rewrite (structure_ok_delete _ _ Hitem). cbn [andb banner].
  eexists ([Title; Rule] ++ checker_lines json_loads (delete item files)).
  by rewrite <- app_assoc.
Qed.

Lemma removing_required_item_fails_witness :
  "models" ∈ required_dirs ++ required_files ∧
  ∃ lines,
    script PyJson.loads (delete "models" complete_project) =
      (Exit 1, World (delete "models" complete_project)
                 (lines ++ [ClosingRule; BannerFailed; BannerFixIssues])).
Proof.
  assert (H : "models" ∈ required_dirs ++ required_files).
  { apply (bool_decide_unpack _). vm_compute. exact I. }
  split; [exact H|].
  exact (removing_required_item_fails PyJson.loads complete_project "models" H).
Defined.

(** ** Failure reports *)

Lemma failures_app a b : failures (a ++ b) = failures a + failures b.
Proof. unfold failures. by rewrite List.filter_app, length_app. Qed.

Lemma failures_check_lines {A} (test : A → bool) (ok bad : A → line) xs :
  (∀ x, test x = true → gating_failure (ok x) = false) →
  (∀ x, test x = false → gating_failure (bad x) = true) →
  failures (check_lines test ok bad xs) = if forallb test xs then 0 else 1.
Proof.
  intros Hok Hbad. induction xs as [|x xs IH]; simpl; [done|].
  destruct (test x) eqn:Hx; simpl.
  - unfold failures in *. simpl. by rewrite (Hok x Hx).
  - unfold failures. simpl. by rewrite (Hbad x Hx).
Qed.

Lemma failures_report_lines {A} (test : A → bool) (ok bad : A → line) xs :
  (∀ x, gating_failure (ok x) = false) →
  (∀ x, gating_failure (bad x) = false) →
  failures (map (report_line test ok bad) xs) = 0.
Proof.
  intros Hok Hbad. induction xs as [|x xs IH]; simpl; [done|].
  unfold failures in *. simpl. unfold report_line at 1.
  destruct (test x); by rewrite ?Hok, ?Hbad.
Qed.

Lemma failures_structure files :
  failures (structure_lines files) = if structure_ok files then 0 else 1.
Proof.
  unfold structure_lines, structure_ok.
  change (StructureHeader :: ?l) with ([StructureHeader] ++ l).
  rewrite !failures_app.
  rewrite (failures_check_lines (isdir files)) by done.
  destruct (forallb (isdir files) required_dirs); cbn [andb].
  - by rewrite (failures_check_lines (isfile files)) by done.
  - reflexivity.
Qed.

Lemma failures_notebooks json_loads files :
  failures (notebooks_lines json_loads files) =
    if notebooks_ok json_loads files then 0 else 1.
Proof.
  unfold notebooks_lines, notebooks_ok.
  change (NotebooksHeader :: ?l) with ([NotebooksHeader] ++ l).
  rewrite failures_app. rewrite failures_check_lines; [done|..].
  - intros x. unfold notebook_passes, notebook_line.
    by destruct (notebook_outcome json_loads files x) as [e|[n|]].
  - intros x. unfold notebook_passes, notebook_line.
    destruct (notebook_outcome json_loads files x) as [e|[n|]]; try done.
    by destruct (is_JSONDecodeError e).
Qed.

Lemma failures_pipeline files : failures (pipeline_lines files) = 0.
Proof.
  unfold pipeline_lines.
  change (PipelineHeader :: ?l) with ([PipelineHeader] ++ l).
  rewrite !failures_app, failures_report_lines by done.
  by destruct (isfile files models_readme).
Qed.

Lemma failures_requirements files :
  failures (requirements_lines files) = if requirements_ok files then 0 else 1.
Proof.
  unfold requirements_lines, requirements_ok.
  change (RequirementsHeader :: ?l) with ([RequirementsHeader] ++ l).
  rewrite failures_app.
  destruct (read_text files "requirements.txt") as [e|requirements]; [done|].
  by rewrite failures_check_lines.
Qed.

Lemma failures_gitignore files :
  failures (gitignore_lines files) = if gitignore_ok files then 0 else 1.
Proof.
  unfold gitignore_lines, gitignore_ok.
  change (GitignoreHeader :: ?l) with ([GitignoreHeader] ++ l).
  rewrite failures_app.
  destruct (read_text files ".gitignore") as [e|gitignore]; [done|].
  by rewrite failures_report_lines.
Qed.

(** X5: each checker reports a failure exactly when it returns false, and
    then exactly once: the run of a checker that returns true prints no
    failure line, the run of one that returns false prints one.  (The
    documentation lines of the Pipeline Layout Checker and the pattern
    warnings do not count as failures, and those two checkers print
    nothing else.) *)
Theorem one_report_per_failing_checker
    (json_loads : string → exn + json) (files : gmap string node) (check : M bool) :
  check ∈ checks json_loads →
  ∃ b : bool,
    returns check files b ∧
    failures (printed check files) = if b then 0 else 1.
Proof.
  intros Hin. unfold checks in Hin. unfold printed.
  repeat (apply elem_of_cons in Hin as [->|Hin]); [..|by apply elem_of_nil in Hin].
  - exists (structure_ok files). split; [by apply returns_structure|].
    rewrite validate_project_structure_run. apply failures_structure.
  - exists (notebooks_ok json_loads files). split; [by apply returns_notebooks|].
    rewrite validate_notebooks_run. apply failures_notebooks.
  - exists true. split; [by apply returns_pipeline|].
    rewrite validate_data_pipeline_run. apply failures_pipeline.
  - exists (requirements_ok files). split; [by apply returns_requirements|].
    rewrite validate_requirements_run. apply failures_requirements.
  - exists (gitignore_ok files). split; [by apply returns_gitignore|].
    rewrite validate_gitignore_run. apply failures_gitignore.
Qed.

Lemma one_report_per_failing_checker_witness :
  let files := delete "requirements.txt" complete_project in
  validate_requirements ∈ checks PyJson.loads ∧
  ∃ b : bool,
    returns validate_requirements files b ∧
    failures (printed validate_requirements files) = if b then 0 else 1.
Proof.
  intros files.
  assert (H : validate_requirements ∈ checks PyJson.loads).
  { unfold checks. do 3 (apply elem_of_cons; right). apply elem_of_cons. by left. }
  split; [exact H|].
  exact (one_report_per_failing_checker PyJson.loads files validate_requirements H).
Defined.

Lemma check_lines_Forall {A} (P : line → Prop) (test : A → bool) ok bad xs :
  (∀ x, x ∈ xs → P (ok x) ∧ P (bad x)) →
  Forall P (check_lines test ok bad xs).
Proof.
  induction xs as [|x xs IH]; intros H; simpl; [constructor|].
  destruct (H x) as [Hok Hbad]; [apply elem_of_cons; by left|].
  destruct (test x); [|by repeat constructor].
  constructor; [done|]. apply IH. intros y Hy. apply H, elem_of_cons. by right.
Qed.

Lemma tally_app f a b : tally f (a ++ b) = tally f a + tally f b.
Proof. unfold tally. by rewrite List.filter_app, length_app. Qed.

Lemma tally_check_lines {A} f (test : A → bool) (ok bad : A → line) xs :
  (∀ x, test x = true → f (ok x) = false) →
  (∀ x, test x = false → f (bad x) = true) →
  tally f (check_lines test ok bad xs) = if forallb test xs then 0 else 1.
Proof.
  intros Hok Hbad. induction xs as [|x xs IH]; simpl; [done|].
  destruct (test x) eqn:Hx; simpl.
  - unfold tally in *. simpl. by rewrite (Hok x Hx).
  - unfold tally. simpl. by rewrite (Hbad x Hx).
Qed.

Lemma tally_report_lines {A} f (test : A → bool) (ok bad : A → line) xs :
  (∀ x, f (ok x) = false) → (∀ x, f (bad x) = false) →
  tally f (map (report_line test ok bad) xs) = 0.
Proof.
  intros Hok Hbad. induction xs as [|x xs IH]; simpl; [done|].
  unfold tally in *. simpl. unfold report_line at 1.
  destruct (test x); by rewrite ?Hok, ?Hbad.
Qed.

Lemma tally_none f lines :
  tally f lines = 0 ↔ Forall (λ l, f l = false) lines.
Proof.
  unfold tally. induction lines as [|l lines IH]; simpl.
  - split; [constructor | done].
  - rewrite Forall_cons, <- IH. destruct (f l); simpl; split; try done.
    + by intros [? _].
    + tauto.
Qed.

Lemma failure_marks_of_checkers json_loads files :
  tally failure_mark (checker_lines json_loads files) =
  failures (checker_lines json_loads files).
Proof.
  unfold checker_lines. rewrite !tally_app, !failures_app.
  rewrite failures_structure, failures_notebooks, failures_pipeline,
    failures_requirements, failures_gitignore.
  f_equal; [|f_equal; [|f_equal; [|f_equal]]].
  - unfold structure_lines, structure_ok.
    change (StructureHeader :: ?l) with ([StructureHeader] ++ l).
    rewrite !tally_app.
    rewrite (tally_check_lines failure_mark (isdir files)) by done.
    destruct (forallb (isdir files) required_dirs); cbn [andb].
    + by rewrite (tally_check_lines failure_mark (isfile files)) by done.
    + reflexivity.
  - unfold notebooks_lines, notebooks_ok.
    change (NotebooksHeader :: ?l) with ([NotebooksHeader] ++ l).
    rewrite tally_app. rewrite tally_check_lines; [done|..].
    + intros x. unfold notebook_passes, notebook_line.
      by destruct (notebook_outcome json_loads files x) as [e|[n|]].
    + intros x. unfold notebook_passes, notebook_line.
      destruct (notebook_outcome json_loads files x) as [e|[n|]]; try done.
      by destruct (is_JSONDecodeError e).
  - unfold pipeline_lines.
    change (PipelineHeader :: ?l) with ([PipelineHeader] ++ l).
    rewrite !tally_app, tally_report_lines by done.
    by destruct (isfile files models_readme).
  - unfold requirements_lines, requirements_ok.
    change (RequirementsHeader :: ?l) with ([RequirementsHeader] ++ l).
    rewrite tally_app.
    destruct (read_text files "requirements.txt") as [e|requirements]; [done|].
    by rewrite tally_check_lines.
  - unfold gitignore_lines, gitignore_ok.
    change (GitignoreHeader :: ?l) with ([GitignoreHeader] ++ l).
    rewrite tally_app.
    destruct (read_text files ".gitignore") as [e|gitignore]; [done|].
    by rewrite tally_report_lines.
Qed.

(** X6: the exit status can be read off the output, once the lines of the
    Pipeline Layout Checker are set aside.  The source marks with a cross
    the failure reports of the four checkers that can return false, the
    failure banner, and also the missing-documentation lines of the
    Pipeline Layout Checker, which never change a result.  Counting only
    the reports of the four checkers that can fail: the script exits with
    0 exactly when it printed none of them and with 1 exactly when it
    printed at least one, and it never prints more than four.  Counting
    every cross: the script exits with 0 exactly when every cross-marked
    line it printed is a missing-documentation line of the Pipeline Layout
    Checker, of which there can be up to four on a run that exits with
    0. *)
Theorem exit_status_matches_reports
    (json_loads : string → exn + json) (files : gmap string node) :
  let r := script json_loads files in
  (r.1 = Exit 0 ↔ failures (stdout r.2) = 0) ∧
  (r.1 = Exit 1 ↔ (0 < failures (stdout r.2))%nat) ∧
  (failures (stdout r.2) ≤ 4)%nat ∧
  (r.1 = Exit 0 ↔
     Forall (λ l, cross_marked l = true → missing_documentation l = true)
       (stdout r.2)) ∧
  (tally missing_documentation (stdout r.2) ≤ 4)%nat ∧
  (Forall (λ path, isfile files path = false) pipeline_readmes →
   tally missing_documentation (stdout r.2) = 4).
Proof.
  intros r. subst r. rewrite script_run. cbn [fst snd stdout].
  assert (Hmarks : tally failure_mark (main_lines json_loads files) =
            failures (checker_lines json_loads files) +
            (if all_ok json_loads files then 0 else 1)).
  { unfold main_lines. rewrite !tally_app, failure_marks_of_checkers.
    by destruct (all_ok json_loads files). }
  assert (Hfail : failures (main_lines json_loads files) =
            failures (checker_lines json_loads files)).
  { unfold main_lines. rewrite !failures_app.
    destruct (all_ok json_loads files); cbn; lia. }
  assert (Hdoc : tally missing_documentation (main_lines json_loads files) =
            tally missing_documentation (pipeline_lines files)).
  { unfold main_lines, checker_lines. rewrite !tally_app.
    assert (tally missing_documentation (structure_lines files) = 0) as ->.
    { apply tally_none. unfold structure_lines. constructor; [done|].
      apply Forall_app. split; [by apply check_lines_Forall|].
      destruct (forallb _ _); [by apply check_lines_Forall | constructor]. }
    assert (tally missing_documentation (notebooks_lines json_loads files) = 0) as ->.
    { apply tally_none. unfold notebooks_lines. constructor; [done|].
      apply check_lines_Forall. intros x _. unfold notebook_line.
      destruct (notebook_outcome json_loads files x) as [e|[n|]]; try done.
      by destruct (is_JSONDecodeError e). }
    assert (tally missing_documentation (requirements_lines files) = 0) as ->.
    { apply tally_none. unfold requirements_lines. constructor; [done|].
      destruct (read_text files "requirements.txt"); [by repeat constructor|].
      by apply check_lines_Forall. }
    assert (tally missing_documentation (gitignore_lines files) = 0) as ->.
    { unfold gitignore_lines.
      change (GitignoreHeader :: ?l) with ([GitignoreHeader] ++ l).
      rewrite tally_app.
      destruct (read_text files ".gitignore"); [done|].
      by rewrite tally_report_lines. }
    destruct (all_ok json_loads files); cbn; lia. }
  assert (Hcount : failures (checker_lines json_loads files) =
            (if structure_ok files then 0 else 1) +
            ((if notebooks_ok json_loads files then 0 else 1) +
             (0 + ((if requirements_ok files then 0 else 1) +
                   (if gitignore_ok files then 0 else 1))))).
  { unfold checker_lines. rewrite !failures_app.
    by rewrite failures_structure, failures_notebooks, failures_pipeline,
      failures_requirements, failures_gitignore. }
  assert (Hpos : if all_ok json_loads files
                 then failures (checker_lines json_loads files) = 0
                 else (0 < failures (checker_lines json_loads files))%nat).
  { rewrite Hcount. unfold all_ok.
    destruct (structure_ok files), (notebooks_ok json_loads files),
      (requirements_ok files), (gitignore_ok files); cbn; lia. }
  rewrite Hfail.
  split; [|split; [|split; [|split; [|split]]]].
  - destruct (all_ok json_loads files); split; intros; try done; lia.
  - destruct (all_ok json_loads files); split; intros; try done; lia.
  - rewrite Hcount.
    destruct (structure_ok files), (notebooks_ok json_loads files),
      (requirements_ok files), (gitignore_ok files); cbn; lia.
  - assert (Hiff : Forall (λ l, cross_marked l = true → missing_documentation l = true)
                     (main_lines json_loads files) ↔
                   Forall (λ l, failure_mark l = false) (main_lines json_loads files)).
    { split; intros H; (eapply Forall_impl; [exact H|]); intros l; cbn beta;
        unfold failure_mark;
        destruct (cross_marked l), (missing_documentation l); cbn;
        intuition congruence. }
    rewrite Hiff, <- tally_none, Hmarks.
    destruct (all_ok json_loads files); split; intros; try done; lia.
  - rewrite Hdoc. unfold pipeline_lines, tally. cbn.
    unfold report_line.
    repeat match goal with |- context [if ?b then _ else _] => destruct b end;
      cbn; lia.
  - intros Hnone. rewrite Hdoc.
    assert (H1 : isfile files "data/raw/README.md" = false)
      by (by inversion Hnone).
    assert (H2 : isfile files "data/stage/README.md" = false)
      by (inversion Hnone as [|? ? _ H]; by inversion H).
    assert (H3 : isfile files "data/processed/README.md" = false)
      by (inversion Hnone as [|? ? _ H]; inversion H as [|? ? _ H']; by inversion H').
    assert (H4 : isfile files "models/README.md" = false).
    { inversion Hnone as [|? ? _ H]; inversion H as [|? ? _ H'];
        inversion H' as [|? ? _ H'']; by inversion H''. }
    unfold pipeline_lines, tally, report_line, layer_documented, readme_file,
      models_readme. cbn.
    change ("data/" +:+ "raw" +:+ "/README.md") with "data/raw/README.md".
    change ("data/" +:+ "stage" +:+ "/README.md") with "data/stage/README.md".
    change ("data/" +:+ "processed" +:+ "/README.md") with "data/processed/README.md".
    by rewrite H1, H2, H3, H4.
Qed.

(** ** After the first failure *)

Lemma check_lines_upto {A} (test test' : A → bool) (ok ok' bad bad' : A → line)
    pre y post :
  (∀ x, x ∈ pre ++ [y] → test x = test' x ∧ ok x = ok' x ∧ bad x = bad' x) →
  test y = false →
  forallb test' (pre ++ y :: post) = false ∧
  forallb test (pre ++ y :: post) = false ∧
  check_lines test' ok' bad' (pre ++ y :: post) =
  check_lines test ok bad (pre ++ y :: post).
Proof.
  induction pre as [|x pre IH]; intros H Hy; simpl.
  - destruct (H y) as (<- & _ & <-); [apply elem_of_cons; by left|].
    by rewrite Hy.
  - destruct (H x) as (<- & <- & <-); [apply elem_of_cons; by left|].
    destruct IH as (-> & -> & ->); [|done|].
    + intros z Hz. apply H. simpl. apply elem_of_cons. by right.
    + by destruct (test x).
Qed.

(** X7: the Notebook Checker opens nothing after the first notebook that
    fails: if a notebook does not pass on a filesystem, any filesystem that
    agrees with it on that notebook and the ones listed before it gives the
    same run, returning false after the same lines, whatever the later
    notebooks hold. *)
Theorem notebooks_after_failure_unread
    (json_loads : string → exn + json) (files files' : gmap string node)
    (pre post : list string) (notebook : string) (out : list line) :
  notebooks = pre ++ notebook :: post →
  (¬ ∃ n, has_sized_cells json_loads files notebook n) →
  agree_on (pre ++ [notebook]) files files' →
  (validate_notebooks json_loads (World files' out)).1 = inr false ∧
  (validate_notebooks json_loads (World files out)).1 = inr false ∧
  stdout (validate_notebooks json_loads (World files' out)).2 =
  stdout (validate_notebooks json_loads (World files out)).2.
Proof.
  intros Hsplit Hfail Hagree.
  assert (Hy : notebook_passes json_loads files notebook = false).
  { destruct (notebook_passes json_loads files notebook) eqn:H; [|done].
    by apply notebook_passes_sized in H. }
  destruct (check_lines_upto
              (notebook_passes json_loads files) (notebook_passes json_loads files')
              (notebook_line json_loads files) (notebook_line json_loads files')
              (notebook_line json_loads files) (notebook_line json_loads files')
              pre notebook post) as (H1 & H2 & H3); [|exact Hy|].
  { intros x Hx. unfold notebook_passes, notebook_line, notebook_outcome.
    by rewrite (read_text_agree files files' x (Hagree x Hx)). }
  rewrite !validate_notebooks_run. cbn [fst snd stdout].
  unfold notebooks_ok, notebooks_lines. by rewrite Hsplit, H1, H2, H3.
Qed.

Lemma notebooks_after_failure_unread_witness :
  let files := project (dq "['cells']") requirements_text gitignore_text in
  let files' := delete "notebooks/04_model_training.ipynb" files in
  let pre := ["notebooks/01_data_ingestion.ipynb"] in
  let notebook := "notebooks/02_data_cleaning.ipynb" in
  let post := ["notebooks/03_feature_engineering.ipynb";
               "notebooks/04_model_training.ipynb"] in
  notebooks = pre ++ notebook :: post ∧
  (¬ ∃ n, has_sized_cells PyJson.loads files notebook n) ∧
  agree_on (pre ++ [notebook]) files files' ∧
  (validate_notebooks PyJson.loads (World files' [])).1 = inr false.
Proof.
  intros files files' pre notebook post.
  assert (H1 : notebooks = pre ++ notebook :: post) by reflexivity.
  assert (H2 : ¬ ∃ n, has_sized_cells PyJson.loads files notebook n).
  { intros (n & text & items & cells & Hr & Hl & _).
    vm_compute in Hr. injection Hr as <-. vm_compute in Hl. discriminate. }
  assert (H3 : agree_on (pre ++ [notebook]) files files').
  { intros path Hin. apply lookup_delete_ne. intros <-. revert Hin.
    apply (bool_decide_unpack _). vm_compute. exact I. }
  split; [exact H1|]. split; [exact H2|]. split; [exact H3|].
  exact (proj1 (notebooks_after_failure_unread PyJson.loads files files'
                  pre post notebook [] H1 H2 H3)).
Defined.

(** X8: the Structure Checker tests nothing after the first missing
    directory: if a required directory is missing, any filesystem that
    agrees on it and on the directories listed before it gives the same
    run; in particular none of the seven required files is looked at. *)
Theorem structure_after_missing_dir_untested
    (files files' : gmap string node)
    (pre post : list string) (dir_path : string) (out : list line) :
  required_dirs = pre ++ dir_path :: post →
  isdir files dir_path = false →
  agree_on (pre ++ [dir_path]) files files' →
  (validate_project_structure (World files' out)).1 = inr false ∧
  stdout (validate_project_structure (World files' out)).2 =
  stdout (validate_project_structure (World files out)).2 ∧
  Forall (λ l, ∀ file_path, l ≠ FileOk file_path ∧ l ≠ FileMissing file_path)
    (printed validate_project_structure files).
Proof.
  intros Hsplit Hmiss Hagree.
  destruct (check_lines_upto (isdir files) (isdir files')
              DirOk DirOk DirMissing DirMissing pre dir_path post)
    as (H1 & H2 & H3); [|exact Hmiss|].
  { intros x Hx. split; [|done]. symmetry. apply isdir_agree, Hagree, Hx. }
  unfold printed. rewrite !validate_project_structure_run. cbn [fst snd stdout].
  unfold structure_ok, structure_lines. rewrite Hsplit, H1, H2, H3. cbn [andb].
  split; [done|]. split; [done|].
  rewrite app_nil_r. cbn [app]. constructor; [done|].
  clear. generalize (pre ++ dir_path :: post). intros xs.
  induction xs as [|x xs IH]; simpl; [constructor|].
  destruct (isdir files x); repeat constructor; done.
Qed.

Lemma structure_after_missing_dir_untested_witness :
  let files := delete "data/raw" complete_project in
  let files' := delete "README.md" (delete "data/raw" complete_project) in
  required_dirs = ["data"] ++ "data/raw" :: ["data/stage"; "data/processed"; "notebooks"; "models"] ∧
  isdir files "data/raw" = false ∧
  agree_on (["data"] ++ ["data/raw"]) files files' ∧
  (validate_project_structure (World files' [])).1 = inr false.
Proof.
  intros files files'.
  assert (H3 : agree_on (["data"] ++ ["data/raw"]) files files').
  { intros path Hin. apply lookup_delete_ne. intros <-. revert Hin.
    apply (bool_decide_unpack _). vm_compute. exact I. }
  split; [reflexivity|]. split; [vm_compute; reflexivity|]. split; [exact H3|].
  refine (proj1 (structure_after_missing_dir_untested files files'
                   ["data"] ["data/stage"; "data/processed"; "notebooks"; "models"]
                   "data/raw" [] eq_refl _ H3)).
  vm_compute. reflexivity.
Defined.

(** ** What a passing Structure Checker gives the later checkers *)

Lemma opened_paths_required :
  Forall (λ path, path ∈ required_files)
    (notebooks ++ ["requirements.txt"; ".gitignore"]).
Proof. apply (bool_decide_unpack _). vm_compute. exact I. Qed.

(** ** The manifest *)

Lemma string_app_assoc a b c : (a +:+ b) +:+ c = a +:+ (b +:+ c).
Proof.
  induction a as [|x a IH]; [done|].
  rewrite !append_String. by rewrite IH.
Qed.

Lemma occurs_extend p s before after :
  occurs p s → occurs p (before +:+ s +:+ after).
Proof.
  intros (pre & post & ->). exists (before +:+ pre), (post +:+ after).
  by rewrite !string_app_assoc.
Qed.

(** X10: a passing manifest stays passing when text is added around it or
    letters change case: if [requirements.txt] passes with one text, it
    passes with every text whose lower-casing contains the lower-casing of
    the first. *)
Theorem requirements_pass_survives_additions
    (files files' : gmap string node) (text text' before after : string) :
  read_text files "requirements.txt" = inr text →
  read_text files' "requirements.txt" = inr text' →
  lower text' = before +:+ lower text +:+ after →
  returns validate_requirements files true →
  returns validate_requirements files' true.
Proof.
  intros Hread Hread' Hlower Hok.
  apply returns_requirements in Hok. apply returns_requirements. symmetry.
  symmetry in Hok. unfold requirements_ok in *. rewrite Hread in Hok. rewrite Hread'.
  apply forallb_Forall_true. apply forallb_Forall_true in Hok.
  eapply Forall_impl; [exact Hok|]. intros package Hp.
  unfold package_specified in *. rewrite Hlower.
  apply contains_spec, occurs_extend. by apply contains_spec.
Qed.

Lemma requirements_pass_survives_additions_witness :
  let files := complete_project in
  let text' := "# Runtime dependencies
PANDAS>=1.5.0
NumPy>=1.23.0
tensorflow>=2.10.0
Scikit-Learn>=1.1.0
matplotlib
seaborn
faker
jupyter
pytest
" in
  let files' := project notebook_text text' gitignore_text in
  let before := "# runtime dependencies
" in
  let after := "pytest
" in
  read_text files "requirements.txt" = inr requirements_text ∧
  read_text files' "requirements.txt" = inr text' ∧
  lower text' = before +:+ lower requirements_text +:+ after ∧
  returns validate_requirements files true ∧
  returns validate_requirements files' true.
Proof.
  intros files text' files' before after.
  assert (H1 : read_text files "requirements.txt" = inr requirements_text)
    by (vm_compute; reflexivity).
  assert (H2 : read_text files' "requirements.txt" = inr text')
    by (vm_compute; reflexivity).
  assert (H3 : lower text' = before +:+ lower requirements_text +:+ after)
    by (vm_compute; reflexivity).
  assert (H4 : returns validate_requirements files true).
  { apply returns_requirements. vm_compute. reflexivity. }
  split; [exact H1|]. split; [exact H2|]. split; [exact H3|]. split; [exact H4|].
  exact (requirements_pass_survives_additions files files' requirements_text text'
           before after H1 H2 H3 H4).
Defined.

(** X11: when [requirements.txt] cannot be read the Requirements Checker
    tests no package: it prints its header and the error, and returns
    false; a missing file is reported as [FileNotFoundError], a directory
    in its place as [IsADirectoryError], and the script then exits with
    1. *)
Theorem requirements_unreadable_fails
    (json_loads : string → exn + json) (files : gmap string node)
    (out : list line) (e : exn) :
  read_text files "requirements.txt" = inl e →
  validate_requirements (World files out) =
    (inr false, World files (out ++ [RequirementsHeader; RequirementsError e])) ∧
  (files !! "requirements.txt" = None → e = FileNotFoundError "requirements.txt") ∧
  (files !! "requirements.txt" = Some Directory →
     e = IsADirectoryError "requirements.txt") ∧
  (script json_loads files).1 = Exit 1.
Proof.
  intros Hread. rewrite validate_requirements_run.
  unfold requirements_ok, requirements_lines. rewrite Hread.
  split; [done|]. unfold read_text in Hread.
  split; [intros H; rewrite H in Hread; congruence|].
  split; [intros H; rewrite H in Hread; congruence|].
  apply exit_one_not_ok. unfold all_ok, requirements_ok, read_text.
  destruct (files !! "requirements.txt") as [[|c|c]|]; simplify_eq;
    by rewrite ?andb_false_r.
Qed.

Lemma requirements_unreadable_fails_witness :
  let files := delete "requirements.txt" complete_project in
  read_text files "requirements.txt" = inl (FileNotFoundError "requirements.txt") ∧
  validate_requirements (World files []) =
    (inr false,
     World files ([] ++ [RequirementsHeader;
                         RequirementsError (FileNotFoundError "requirements.txt")])).
Proof.
  intros files.
  assert (H : read_text files "requirements.txt" =
              inl (FileNotFoundError "requirements.txt"))
    by (vm_compute; reflexivity).
  split; [exact H|].
  exact (proj1 (requirements_unreadable_fails PyJson.loads files [] _ H)).
Defined.

(** ** Contents that do not matter *)

Lemma other_paths_distinct :
  Forall (λ path, "README.md" ≠ path ∧ ".gitignore" ≠ path)
    (notebooks ++ ["requirements.txt"]).
Proof. apply (bool_decide_unpack _). vm_compute. exact I. Qed.

Section Contents.

Variable json_loads : string → exn + json.
Variable files : gmap string node.
Variables readme readme' : exn + string.
Variables gitignore gitignore' : string.
Hypothesis readme_file_here : files !! "README.md" = Some (RegularFile readme).
Hypothesis gitignore_here : files !! ".gitignore" = Some (RegularFile (inr gitignore)).

Lemma rewritten_lookup path :
  rewritten_project files readme' gitignore' !! path =
    if decide ("README.md" = path) then Some (RegularFile readme')
    else if decide (".gitignore" = path) then Some (RegularFile (inr gitignore'))
    else files !! path.
Proof. unfold rewritten_project. by rewrite !lookup_insert. Qed.

Lemma rewritten_isdir path : isdir (rewritten_project files readme' gitignore') path = isdir files path.
Proof.
  unfold isdir. rewrite rewritten_lookup.
  repeat case_decide; subst; by rewrite ?readme_file_here, ?gitignore_here.
Qed.

Lemma rewritten_isfile path : isfile (rewritten_project files readme' gitignore') path = isfile files path.
Proof.
  unfold isfile. rewrite rewritten_lookup.
  repeat case_decide; subst; by rewrite ?readme_file_here, ?gitignore_here.
Qed.

Lemma rewritten_read path :
  path ∈ notebooks ++ ["requirements.txt"] →
  read_text (rewritten_project files readme' gitignore') path = read_text files path.
Proof.
  intros Hin. pose proof other_paths_distinct as H. rewrite Forall_forall in H.
  destruct (H path Hin) as [H1 H2].
  unfold read_text. rewrite rewritten_lookup.
  by rewrite !decide_False by done.
Qed.

Lemma rewritten_all_ok : all_ok json_loads (rewritten_project files readme' gitignore') = all_ok json_loads files.
Proof.
  unfold all_ok. f_equal; [f_equal; [f_equal|]|].
  - unfold structure_ok. f_equal; apply forallb_ext_elem; intros x _.
    + apply rewritten_isdir.
    + apply rewritten_isfile.
  - unfold notebooks_ok. apply forallb_ext_elem. intros x Hx.
    unfold notebook_passes, notebook_outcome. rewrite rewritten_read; [done|].
    apply elem_of_app. by left.
  - unfold requirements_ok. rewrite rewritten_read; [done|].
    apply elem_of_app. right. apply elem_of_cons. by left.
  - unfold gitignore_ok, read_text. rewrite rewritten_lookup, gitignore_here.
    by rewrite decide_False, decide_True by done.
Qed.

End Contents.

(** X12: the exit status does not depend on what [README.md] holds, nor
    on what a readable [.gitignore] holds: replacing the content of
    [README.md] by any other, readable or not, and the text of
    [.gitignore] by any other text, leaves the exit status as it was. *)
Theorem readme_and_gitignore_contents_ignored
    (json_loads : string → exn + json) (files : gmap string node)
    (readme readme' : exn + string) (gitignore gitignore' : string) :
  files !! "README.md" = Some (RegularFile readme) →
  files !! ".gitignore" = Some (RegularFile (inr gitignore)) →
  (script json_loads (rewritten_project files readme' gitignore')).1 =
  (script json_loads files).1.
Proof.
  intros Hreadme Hgitignore. rewrite !script_run. cbn [fst].
  by rewrite (rewritten_all_ok json_loads files readme readme' gitignore gitignore'
                Hreadme Hgitignore).
Qed.

Lemma readme_and_gitignore_contents_ignored_witness :
  complete_project !! "README.md" =
    Some (RegularFile (inr "# E-commerce Retention Predictor")) ∧
  complete_project !! ".gitignore" = Some (RegularFile (inr gitignore_text)) ∧
  (script PyJson.loads
     (rewritten_project complete_project (inl (PermissionError "README.md")) "")).1 =
  (script PyJson.loads complete_project).1.
Proof.
  assert (H1 : complete_project !! "README.md" =
               Some (RegularFile (inr "# E-commerce Retention Predictor")))
    by (vm_compute; reflexivity).
  assert (H2 : complete_project !! ".gitignore" =
               Some (RegularFile (inr gitignore_text)))
    by (vm_compute; reflexivity).
  split; [exact H1|]. split; [exact H2|].
  exact (readme_and_gitignore_contents_ignored PyJson.loads complete_project
           _ (inl (PermissionError "README.md")) _ "" H1 H2).
Defined.

(** ** The guarded lookup *)

Lemma guarded_getitem key key_repr content :
  py_in key content = inr true →
  ∀ e, py_getitem content key key_repr = inl e → is_KeyError e = false.
Proof.
  destruct content as [| | | | s | arr | items]; simpl; intros Hin e He;
    try (by simplify_eq).
  destruct (dict_get key items) as [x|] eqn:Hget; [discriminate|].
  injection Hin as Hin. discriminate.
Qed.

Lemma py_len_no_KeyError v e : py_len v = inl e → is_KeyError e = false.
Proof. destruct v; simpl; intros H; by simplify_eq. Qed.

Lemma py_in_no_KeyError key v e : py_in key v = inl e → is_KeyError e = false.
Proof. destruct v; simpl; intros H; by simplify_eq. Qed.

(** X13: the lookup [content['cells']] is guarded by the membership test
    before it, so it never raises [KeyError]: provided neither reading a
    notebook nor decoding its text raises one, no line of the Notebook
    Checker reports a [KeyError], whatever the decoded values are. *)
Theorem notebook_lookup_never_raises_KeyError
    (json_loads : string → exn + json) (files : gmap string node) :
  (∀ notebook, notebook ∈ notebooks →
     match read_text files notebook with
     | inl e => is_KeyError e = false
     | inr text => ∀ e, json_loads text = inl e → is_KeyError e = false
     end) →
  Forall (λ l, reports_KeyError l = false)
    (printed (validate_notebooks json_loads) files).
Proof.
  intros Hsafe. unfold printed. rewrite validate_notebooks_run.
  cbn [snd stdout app]. unfold notebooks_lines. constructor; [done|].
  apply check_lines_Forall. intros x Hx.
  assert (H : reports_KeyError (notebook_line json_loads files x) = false); [|done].
  specialize (Hsafe x Hx). unfold notebook_line, notebook_outcome.
  destruct (read_text files x) as [e|text].
  { destruct (is_JSONDecodeError e); exact Hsafe. }
  destruct (json_loads text) as [e|content] eqn:Hloads.
  { destruct (is_JSONDecodeError e); exact (Hsafe e eq_refl). }
  destruct (py_in _ content) as [e|[]] eqn:Hin.
  { apply py_in_no_KeyError in Hin. by destruct (is_JSONDecodeError e). }
  2: done.
  destruct (py_getitem content _ _) as [e|cells] eqn:Hget.
  { apply (guarded_getitem _ _ _ Hin) in Hget. by destruct (is_JSONDecodeError e). }
  destruct (py_len cells) as [e|n] eqn:Hlen; [|done].
  apply py_len_no_KeyError in Hlen. by destruct (is_JSONDecodeError e).
Qed.

Lemma notebook_lookup_never_raises_KeyError_witness :
  let files := project (dq "{'metadata': {}}") requirements_text gitignore_text in
  (∀ notebook, notebook ∈ notebooks →
     match read_text files notebook with
     | inl e => is_KeyError e = false
     | inr text => ∀ e, PyJson.loads text = inl e → is_KeyError e = false
     end) ∧
  Forall (λ l, reports_KeyError l = false)
    (printed (validate_notebooks PyJson.loads) files).
Proof.
  intros files.
  assert (H : ∀ notebook, notebook ∈ notebooks →
     match read_text files notebook with
     | inl e => is_KeyError e = false
     | inr text => ∀ e, PyJson.loads text = inl e → is_KeyError e = false
     end).
  { intros notebook Hin. unfold notebooks in Hin.
    repeat (apply elem_of_cons in Hin as [->|Hin]);
      [..|by apply elem_of_nil in Hin];
      vm_compute; intros e He; discriminate. }
  split; [exact H|].
  exact (notebook_lookup_never_raises_KeyError PyJson.loads files H).
Defined.

(** ** What each checker looks at *)

Lemma notebooks_agree json_loads files files' :
  agree_on notebooks files files' →
  notebooks_ok json_loads files' = notebooks_ok json_loads files ∧
  notebooks_lines json_loads files' = notebooks_lines json_loads files.
Proof.
  intros Hagree.
  assert (H : ∀ x, x ∈ notebooks →
            notebook_outcome json_loads files' x = notebook_outcome json_loads files x).
  { intros x Hx. unfold notebook_outcome.
    by rewrite (read_text_agree files files' x (Hagree x Hx)). }
  split.
  - unfold notebooks_ok. apply forallb_ext_elem. intros x Hx.
    unfold notebook_passes. by rewrite H.
  - unfold notebooks_lines. f_equal. apply check_lines_ext. intros x Hx.
    unfold notebook_passes, notebook_line. by rewrite H.
Qed.

Lemma structure_ok_agree files files' :
  agree_on (required_dirs ++ required_files) files files' →
  structure_ok files' = structure_ok files.
Proof.
  intros Hagree. unfold structure_ok. f_equal; apply forallb_ext_elem; intros x Hx.
  - apply isdir_agree, Hagree, elem_of_app. by left.
  - apply isfile_agree, Hagree, elem_of_app. by right.
Qed.

(** X14: each checker's run depends on the filesystem only through its own
    paths: the Structure Checker through the thirteen required paths, the
    Notebook Checker through the four notebooks, the Pipeline Layout
    Checker through the four README paths (none of the data and model file
    names it lists is looked at), the Requirements Checker through
    [requirements.txt] and the Ignore-Pattern Checker through
    [.gitignore].  Two filesystems that agree on these paths give the same
    result and the same lines. *)
Theorem checker_footprints
    (json_loads : string → exn + json) (files files' : gmap string node)
    (out : list line) :
  let same (check : M bool) :=
    (check (World files' out)).1 = (check (World files out)).1 ∧
    stdout (check (World files' out)).2 = stdout (check (World files out)).2 in
  (agree_on (required_dirs ++ required_files) files files' →
     same validate_project_structure) ∧
  (agree_on notebooks files files' → same (validate_notebooks json_loads)) ∧
  (agree_on pipeline_readmes files files' → same validate_data_pipeline) ∧
  (agree_on ["requirements.txt"] files files' → same validate_requirements) ∧
  (agree_on [".gitignore"] files files' → same validate_gitignore).
Proof.
  intros same. subst same. cbn beta.
  rewrite !validate_project_structure_run, !validate_notebooks_run,
    !validate_data_pipeline_run, !validate_requirements_run,
    !validate_gitignore_run. cbn [fst snd stdout].
  split; [|split; [|split; [|split]]].
  - intros H. by rewrite (structure_ok_agree files files' H),
      (structure_lines_agree files files' H).
  - intros H. destruct (notebooks_agree json_loads files files' H) as [-> ->]. done.
  - intros H. by rewrite (pipeline_lines_agree files files' H).
  - intros H. unfold requirements_ok, requirements_lines.
    rewrite (read_text_agree files files' "requirements.txt"); [done|].
    apply H, elem_of_cons. by left.
  - intros H. unfold gitignore_ok, gitignore_lines.
    rewrite (read_text_agree files files' ".gitignore"); [done|].
    apply H, elem_of_cons. by left.
Qed.

(** ** An unreadable ignore file *)

(** X15: a [.gitignore] that cannot be read makes the whole run fail:
    whatever the other checkers find, the script prints the error and
    exits with 1.  This holds also where the Structure Checker is
    satisfied, the file being present but unreadable. *)
Theorem unreadable_gitignore_fails_run
    (json_loads : string → exn + json) (files : gmap string node) (e : exn) :
  read_text files ".gitignore" = inl e →
  (script json_loads files).1 = Exit 1 ∧
  GitignoreError e ∈ stdout (script json_loads files).2.
Proof.
  intros Hread. split.
  - apply exit_one_not_ok. unfold all_ok, gitignore_ok. rewrite Hread.
    apply andb_false_r.
  - rewrite script_run. cbn [snd stdout]. unfold main_lines, checker_lines.
    rewrite !elem_of_app. right. left. do 4 right.
    unfold gitignore_lines. rewrite Hread.
    apply elem_of_cons. right. apply elem_of_cons. by left.
Qed.

Lemma unreadable_gitignore_fails_run_witness :
  let files :=
    <[".gitignore" := RegularFile (inl (PermissionError ".gitignore"))]>
      complete_project in
  read_text files ".gitignore" = inl (PermissionError ".gitignore") ∧
  returns validate_project_structure files true ∧
  (script PyJson.loads files).1 = Exit 1.
Proof.
  intros files.
  assert (H : read_text files ".gitignore" = inl (PermissionError ".gitignore"))
    by (vm_compute; reflexivity).
  split; [exact H|]. split.
  - apply returns_structure. vm_compute. reflexivity.
  - exact (proj1 (unreadable_gitignore_fails_run PyJson.loads files _ H)).
Defined.

(** ** Where the later checkers' errors come from *)

Lemma check_lines_elem {A} (test : A → bool) (ok bad : A → line) xs l :
  l ∈ check_lines test ok bad xs → ∃ x, x ∈ xs ∧ (l = ok x ∨ l = bad x).
Proof.
  induction xs as [|x xs IH]; simpl; [by intros H%elem_of_nil|].
  destruct (test x).
  - intros [->|H]%elem_of_cons.
    + exists x. split; [apply elem_of_cons; by left | by left].
    + destruct (IH H) as (y & Hy & Hl). exists y. split; [|done].
      apply elem_of_cons. by right.
  - intros [->|H]%elem_of_cons; [|by apply elem_of_nil in H].
    exists x. split; [apply elem_of_cons; by left | by right].
Qed.

Lemma notebook_line_error json_loads files x notebook e :
  notebook_line json_loads files x = NotebookError notebook e ∨
  notebook_line json_loads files x = NotebookInvalidJSON notebook e →
  x = notebook ∧ notebook_outcome json_loads files x = inl e.
Proof.
  unfold notebook_line.
  destruct (notebook_outcome json_loads files x) as [e'|[n|]].
  - destruct (is_JSONDecodeError e'); intros [H|H]; by simplify_eq.
  - intros [H|H]; discriminate.
  - intros [H|H]; discriminate.
Qed.

Lemma decoded_value_error content e :
  match py_in (codepoints "cells") content with
  | inl e' => inl e'
  | inr false => inr None
  | inr true =>
      match py_getitem content (codepoints "cells") "cells" with
      | inl e' => inl e'
      | inr cells =>
          match py_len cells with
          | inl e' => inl e'
          | inr cell_count => inr (Some cell_count)
          end
      end
  end = inl e →
  ∃ msg, e = TypeError msg.
Proof.
  destruct content as [| | | | s | arr | items]; simpl;
    try (intros [= <-]; eauto).
  - destruct (list_contains _ s); [intros [= <-]; eauto | done].
  - destruct (existsb _ arr); [intros [= <-]; eauto | done].
  - destruct (dict_get _ items) as [cells|]; simpl; [|done].
    destruct cells; simpl; intros H; simplify_eq; eauto.
Qed.

(** X9: every file a later checker opens is one the Structure Checker
    requires, so once the Structure Checker has returned true a later
    checker cannot find its file missing or a directory in its place: an
    error the Requirements Checker or the Ignore-Pattern Checker prints is
    the read error of the regular file itself, and an error the Notebook
    Checker prints for a notebook is the read error of that regular file,
    or the error of decoding its text, or a [TypeError] from using the
    decoded value. *)
Theorem structure_pass_covers_opened_files
    (json_loads : string → exn + json) (files : gmap string node) (e : exn) :
  returns validate_project_structure files true →
  (RequirementsError e ∈ printed validate_requirements files →
     files !! "requirements.txt" = Some (RegularFile (inl e))) ∧
  (GitignoreError e ∈ printed validate_gitignore files →
     files !! ".gitignore" = Some (RegularFile (inl e))) ∧
  (∀ notebook,
     NotebookError notebook e ∈ printed (validate_notebooks json_loads) files ∨
     NotebookInvalidJSON notebook e ∈ printed (validate_notebooks json_loads) files →
     notebook ∈ notebooks ∧
     (files !! notebook = Some (RegularFile (inl e)) ∨
      ∃ text,
        files !! notebook = Some (RegularFile (inr text)) ∧
        (json_loads text = inl e ∨
         ∃ content msg, json_loads text = inr content ∧ e = TypeError msg))).
Proof.
  intros Hok. apply returns_structure in Hok. symmetry in Hok.
  apply structure_ok_true in Hok as [_ Hfiles].
  rewrite Forall_forall in Hfiles.
  pose proof opened_paths_required as Hreq. rewrite Forall_forall in Hreq.
  assert (Hregular : ∀ path,
            path ∈ notebooks ++ ["requirements.txt"; ".gitignore"] →
            ∃ content, files !! path = Some (RegularFile content) ∧
                       read_text files path = content).
  { intros path Hin. destruct (Hfiles path (Hreq path Hin)) as [content Hc].
    exists content. split; [done|]. unfold read_text. by rewrite Hc. }
  unfold printed.
  rewrite validate_requirements_run, validate_gitignore_run, validate_notebooks_run.
  cbn [snd stdout app]. split; [|split].
  - destruct (Hregular "requirements.txt") as (content & Hlook & Hread).
    { apply elem_of_app. right. apply elem_of_cons. by left. }
    unfold requirements_lines. rewrite Hread. rewrite Hlook.
    intros [H|H]%elem_of_cons; [discriminate|].
    destruct content as [e'|text].
    + apply elem_of_cons in H as [[= ->]|H%elem_of_nil]; done.
    + apply check_lines_elem in H as (x & _ & [H|H]); discriminate.
  - destruct (Hregular ".gitignore") as (content & Hlook & Hread).
    { apply elem_of_app. right. apply elem_of_cons. right. apply elem_of_cons. by left. }
    unfold gitignore_lines. rewrite Hread. rewrite Hlook.
    intros [H|H]%elem_of_cons; [discriminate|].
    destruct content as [e'|text].
    + apply elem_of_cons in H as [[= ->]|H%elem_of_nil]; done.
    + apply list_elem_of_In, in_map_iff in H as (x & H & _).
      unfold report_line in H. destruct (contains x text); discriminate.
  - intros notebook Hline. unfold notebooks_lines in Hline.
    assert (Hx : ∃ x, x ∈ notebooks ∧
              (notebook_line json_loads files x = NotebookError notebook e ∨
               notebook_line json_loads files x = NotebookInvalidJSON notebook e)).
    { destruct Hline as [H|H]; apply elem_of_cons in H as [H|H]; try discriminate;
        apply check_lines_elem in H as (x & Hx & [H|H]); exists x; auto. }
    destruct Hx as (x & Hx & Herr).
    apply notebook_line_error in Herr as [-> Hout].
    split; [done|].
    destruct (Hregular notebook) as (content & Hlook & Hread).
    { apply elem_of_app. by left. }
    rewrite Hlook. unfold notebook_outcome in Hout. rewrite Hread in Hout.
    destruct content as [e'|text]; [left; congruence|].
    right. exists text. split; [done|].
    destruct (json_loads text) as [e'|content] eqn:Hloads; [left; congruence|].
    right. apply decoded_value_error in Hout as [msg ->]. eauto.
Qed.

Lemma structure_pass_covers_opened_files_witness :
  let files :=
    <[".gitignore" := RegularFile (inl (PermissionError ".gitignore"))]>
      (project (dq "{'cells': 5}") requirements_text gitignore_text) in
  let e := PermissionError ".gitignore" in
  returns validate_project_structure files true ∧
  GitignoreError e ∈ printed validate_gitignore files ∧
  files !! ".gitignore" = Some (RegularFile (inl e)).
Proof.
  intros files e.
  assert (H : returns validate_project_structure files true).
  { apply returns_structure. vm_compute. reflexivity. }
  assert (Hline : GitignoreError e ∈ printed validate_gitignore files).
  { unfold printed. rewrite validate_gitignore_run. cbn [snd stdout app].
    apply elem_of_cons. right. vm_compute. apply elem_of_cons. by left. }
  split; [exact H|]. split; [exact Hline|].
  exact (proj1 (proj2 (structure_pass_covers_opened_files PyJson.loads files e H))
           Hline).
Defined.

